(** * A posting service: registration, bearer tokens, posts and a response cache

    Shallow embedding of the service under [src/app]:
    - [config.py]                    -> [Module config]
    - [db/models.py]                 -> [Module models]
    - [db/repositories.py]           -> [UserRepository_*], [PostRepository_*]
    - [business_logic/services.py]   -> [User_*], [Post_*], [JWT_*]
    - [routing/dependencies.py]      -> [validate_token], [validate_payload_size]
    - [routing/endpoints.py]         -> [sign_up], [login], [add_post],
                                        [get_list_of_posts], [delete_post]

    Python exceptions are values of [exn]; code that may raise returns a
    [result]; code that also reads or writes the database session or the
    process-wide cache is a function from the state to a [result] and the
    next state (the monad [M]).

    The third-party libraries the service calls (PyJWT as of its release
    2.10, passlib/bcrypt, cachetools, SQLAlchemy over MySQL) are modelled
    after their behaviour, next to the code that calls them.  Parameters of
    the development are their cryptographic cores (HMAC-SHA256, the bcrypt
    digest), the wire serialisation of a token and Python's [int] on a
    string; what a request is given from outside the source -- clocks, random
    draws, the framework's refusal of a request without credentials -- is the
    record [Env]. *)

From Stdlib Require Import ZArith Lia.
From stdpp Require Import base option strings list gmap pretty.

Local Open Scope string_scope.
Local Open Scope Z_scope.

(** ** [config.py] *)

Module config.

(** Signing key (the repository's raw string literal, as UTF-8 bytes). *)
Definition JWT_KEY : string :=
  "86QEo9,a&<_XWqv3fu`)x-n1^B'1y(r09tq>u5TvSr4!@x`vXk85:r0;((k*]Fw{&$,`_IfvC\!CJfBxc£@6,$VM3v]N%/cPsgrd" ++
  "9%5-5d'A24.r2bPEzl]M!=((C_0OyCS/f=~*4B5/miMk*m16*Yaxg)hk;cI06yhPUUMJeu}`8/8!#\5SW4YT1tx2`X5f'M^Mj^{S" ++
  "ZyZ+7`9lUAF:(1rdx£jW}e+opkM2\XgB44EGN60We];kCP_5wQ5&16BEb:A'HXtZEP-w41/1CzH?9>%1}?M!&b{jo2$XI@jw(;1}".

Definition JWT_ALGORITHM : string := "HS256".

(** Default invalidation time in seconds (3 hours). *)
Definition JWT_TOKEN_INVALIDATION_TIME : Z := 60 * 60 * 3.

Definition PASSWORD_HASHING_ALGORITHM : string := "bcrypt".

Definition PAYLOAD_MAX_SIZE : Z := 1000000.

Definition CACHE_ITEM_LIMIT : Z := 100.
Definition CACHE_TIME_TO_LIVE : Z := 60 * 5.

End config.

(** ** Exceptions and results *)

(** The [jwt.exceptions] classes [jwt.decode] raises; each one is a subclass
    of [jwt.PyJWTError]. *)
Inductive jwt_error : Type :=
  | DecodeError
  | InvalidAlgorithmError
  | InvalidSignatureError
  | ExpiredSignatureError
  | ImmatureSignatureError
  | InvalidIssuedAtError
  | InvalidAudienceError
  | InvalidSubjectError
  | InvalidJTIError.

(** The exception objects that occur in the service.  Every one of them is an
    instance of Python's [Exception], [HTTPException] included
    ([fastapi.HTTPException] derives from Starlette's, which derives from
    [Exception]). *)
Inductive exn : Type :=
  | HTTPException (status_code : Z) (detail : string)
  | PyJWTError (e : jwt_error)
  | TypeError
  | ValueError
  | OverflowError
  | IntegrityError          (* sqlalchemy.exc: a constraint of the schema is violated *)
  | PasswordValueError      (* passlib.exc: NUL byte in the secret *)
  | PasswordSizeError       (* passlib.exc: secret longer than passlib accepts *)
  | UnknownHashError        (* passlib.exc: the stored hash is of no configured scheme *)
  | KeyError
  | AttributeError
  | NotImplementedError.

(** [isinstance(e, jwt.PyJWTError)] *)
Definition is_PyJWTError (e : exn) : bool :=
  match e with PyJWTError _ => true | _ => false end.

Inductive result (A : Type) : Type :=
  | Return (a : A)
  | Raise (e : exn).
Arguments Return {A} a.
Arguments Raise {A} e.

(** Status codes of [starlette.status]. *)
Module status.
Definition HTTP_200_OK : Z := 200.
Definition HTTP_201_CREATED : Z := 201.
Definition HTTP_400_BAD_REQUEST : Z := 400.
Definition HTTP_401_UNAUTHORIZED : Z := 401.
Definition HTTP_403_FORBIDDEN : Z := 403.
Definition HTTP_404_NOT_FOUND : Z := 404.
Definition HTTP_413_REQUEST_ENTITY_TOO_LARGE : Z := 413.
Definition HTTP_500_INTERNAL_SERVER_ERROR : Z := 500.
End status.

(** ** The state-and-exception monad *)

Definition M (S A : Type) : Type := S -> result A * S.

Definition ret {S A} (a : A) : M S A := fun s => (Return a, s).
Definition raise {S A} (e : exn) : M S A := fun s => (Raise e, s).
Definition bind {S A B} (m : M S A) (k : A -> M S B) : M S B :=
  fun s => match m s with
           | (Return a, s') => k a s'
           | (Raise e, s') => (Raise e, s')
           end.
(** A call that may raise but touches no state. *)
Definition lift_result {S A} (r : result A) : M S A := fun s => (r, s).

Notation "x <- m ;; k" := (bind m (fun x => k))
  (at level 100, m at next level, right associativity).

(** [try: body  except Exception: handler] -- the clause catches every
    exception object of [exn], since each is an [Exception]. *)
Definition try_except_Exception {S A} (body handler : M S A) : M S A :=
  fun s => match body s with
           | (Return a, s') => (Return a, s')
           | (Raise _, s') => handler s'
           end.

(** ** Python and JSON values *)

(** What Python keeps in a claims dictionary handed to [jwt.encode]. *)
Inductive pyval : Type :=
  | PyStr (s : string)
  | PyInt (z : Z)
  | PyDatetime (us : Z).
      (* a naive [datetime]: the microseconds from 1970-01-01 00:00:00 to its
         wall-clock reading *)

(** A Python [float] as [json.loads] reads one: the finite number
    [m * 2 ^ e], an infinity (the literals [Infinity] and [-Infinity], or a
    numeral out of range), or a NaN. *)
Inductive pyfloat : Type :=
  | Finite (m e : Z)
  | Infinity (negative : bool)
  | NaN.

Global Instance pyfloat_eq_dec : EqDecision pyfloat.
Proof. solve_decision. Defined.

(** A value of a decoded token payload, as [json.loads] returns it: [str],
    [int], [float], [bool], [None], [list] or [dict]. *)
Local Unset Elimination Schemes.
Inductive json : Type :=
  | JString (s : string)
  | JNumber (z : Z)
  | JFloat (f : pyfloat)
  | JBool (b : bool)
  | JNull
  | JArray (items : list json)
  | JObject (members : list (string * json)).
Local Set Elimination Schemes.

Global Instance json_eq_dec : EqDecision json.
Proof.
  refine (fix go (x y : json) {struct x} : Decision (x = y) :=
    match x, y with
    | JString s1, JString s2 => cast_if (decide (s1 = s2))
    | JNumber z1, JNumber z2 => cast_if (decide (z1 = z2))
    | JFloat f1, JFloat f2 => cast_if (decide (f1 = f2))
    | JBool b1, JBool b2 => cast_if (decide (b1 = b2))
    | JNull, JNull => left _
    | JArray l1, JArray l2 => cast_if (@list_eq_dec _ go l1 l2)
    | JObject o1, JObject o2 => cast_if (@list_eq_dec _ (@prod_eq_dec _ _ _ go) o1 o2)
    | _, _ => right _
    end); abstract congruence.
Defined.

(** [int(x)] for a [float]: the number without its fraction; an infinity
    raises [OverflowError], a NaN [ValueError]. *)
Definition int_of_float (f : pyfloat) : result Z :=
  match f with
  | Finite m e => Return (if 0 <=? e then m * 2 ^ e else Z.quot m (2 ^ (- e)))
  | Infinity _ => Raise OverflowError
  | NaN => Raise ValueError
  end.

(** The text a CHAR column holds for a value bound to it: a string as it is,
    an integer in decimal.  The value the handlers bind is the [sub] of a
    payload [jwt.decode] returned, which is a string ([check_sub] below); the
    other kinds of value reach no query and are given the empty text. *)
Definition column_value (v : json) : string :=
  match v with
  | JString s => s
  | JNumber z => pretty z
  | _ => ""
  end.

(** ** [db/models.py] *)

Module models.

(** Table [users]: [id] CHAR(36) primary key, [email] VARCHAR(255) unique,
    [password] String(255); no column is nullable. *)
Record User : Type := mkUser {
  user_id : string;
  email : string;
  password : string;
}.

(** Table [posts]: [id] CHAR(36) primary key, [user_id] CHAR(36) foreign key
    to [users.id], [text] TEXT; no column is nullable. *)
Record Post : Type := mkPost {
  post_id : string;
  post_user_id : string;
  text : string;
}.

End models.

(** ** The database session

    The rows of the two tables, in insertion order.  Column comparison is
    string equality. *)
Record Session : Type := mkSession {
  users : list models.User;
  posts : list models.Post;
}.

(** ** [db/repositories.py] *)

(** [query(User).filter(User.id == user_id).first()] *)
Definition UserRepository_get_by_id (user_id : string) (db : Session)
  : option models.User :=
  List.find (fun u => bool_decide (models.user_id u = user_id)) (users db).

(** [query(User).filter(User.email == email).first()] *)
Definition UserRepository_get_by_email (email : string) (db : Session)
  : option models.User :=
  List.find (fun u => bool_decide (models.email u = email)) (users db).

(** [UserRepository.create]: [add], [commit], [refresh].  [new_id] is the
    value the column default [str(uuid.uuid4())] draws.  The commit raises
    [IntegrityError], and stores nothing, when the primary key or the unique
    email is already taken. *)
Definition UserRepository_create (new_id email password : string)
  : M Session models.User :=
  fun db =>
    if bool_decide (is_Some (UserRepository_get_by_id new_id db)) then (Raise IntegrityError, db)
    else if bool_decide (is_Some (UserRepository_get_by_email email db)) then (Raise IntegrityError, db)
    else let user := models.mkUser new_id email password in
         (Return user, mkSession (users db ++ [user]) (posts db)).

(** [query(Post).filter(Post.id == post_id).first()] *)
Definition PostRepository_get_by_id (post_id : string) (db : Session)
  : option models.Post :=
  List.find (fun p => bool_decide (models.post_id p = post_id)) (posts db).

(** [query(Post).filter(Post.user_id == user_id).all()]; compared with NULL,
    no row matches. *)
Definition PostRepository_get_list_by_user (user_id : option json) (db : Session)
  : list models.Post :=
  match user_id with
  | None => []
  | Some uid =>
      List.filter (fun p => bool_decide (models.post_user_id p = column_value uid)) (posts db)
  end.

(** [PostRepository.create].  The service passes [user_id] as it got it from
    the token, possibly [None].  The commit raises [IntegrityError] when
    [user_id] is NULL (the column is not nullable), when it names no row of
    [users] (foreign key), or when the primary key is taken. *)
Definition PostRepository_create (new_id : string) (user_id : option json)
    (text : string) : M Session models.Post :=
  fun db =>
    match user_id with
    | None => (Raise IntegrityError, db)
    | Some v =>
        let uid := column_value v in
        if bool_decide (is_Some (PostRepository_get_by_id new_id db)) then (Raise IntegrityError, db)
        else if bool_decide (UserRepository_get_by_id uid db = None) then (Raise IntegrityError, db)
        else let post := models.mkPost new_id uid text in
             (Return post, mkSession (users db) (posts db ++ [post]))
    end.

(** [PostRepository.delete]: [False] when [get_by_id] finds nothing; otherwise
    [db.delete(post); db.commit()], which removes the row with the post's
    primary key, and [True]. *)
Definition PostRepository_delete (post_id : string) : M Session bool :=
  fun db =>
    match PostRepository_get_by_id post_id db with
    | None => (Return false, db)
    | Some post =>
        (Return true,
         mkSession (users db)
           (List.filter (fun p => negb (bool_decide (models.post_id p = models.post_id post)))
                        (posts db)))
    end.

(** ** Bearer tokens *)

(** A bearer token as [jwt.decode] reads it.  A string that is not three
    base64url segments holding a JSON header with an [alg] and a JSON object is
    [Malformed]; otherwise the token is [Compact]: the bytes that were signed
    (the first two segments), the header's [alg], the decoded payload and the
    decoded third segment. *)
Record jws : Type := mkJws {
  signing_input : string;
  alg : string;
  payload : gmap string json;
  signature : string;
}.

Inductive token : Type :=
  | Malformed (raw : string)
  | Compact (j : jws).

(** ** [routing/schemas.py] *)

Module schemas.

Record SignUpRequest : Type := mkSignUpRequest { email : string; password : string }.
Record SignUpResponse : Type := mkSignUpResponse { access_token : token }.
Record LoginRequest : Type := mkLoginRequest { login_email : string; login_password : string }.
Record LoginResponse : Type := mkLoginResponse { login_access_token : token }.
Record CreatePostRequest : Type := mkCreatePostRequest { text : string }.
Record CreatePostResponse : Type := mkCreatePostResponse { created_post_id : string }.
Record PostResponse : Type := mkPostResponse { post_id : string; post_text : string }.
Record GetListOfPostsResponse : Type :=
  mkGetListOfPostsResponse { list_of_posts : list PostResponse }.
Record DeletePostRequest : Type := mkDeletePostRequest { id : string }.
Record DeletePostResponse : Type := mkDeletePostResponse { success : string }.

End schemas.

(** ** What a request gets from outside the source

    The clocks, the random draws, and the exception FastAPI's [HTTPBearer]
    raises if it finds no bearer credentials in the request.  That exception
    is FastAPI's own and not the same in all its releases, nor, in some, for
    all such requests: 403 "Not authenticated" for a request without an
    Authorization header in the releases the docstring of
    [dependencies.validate_token] describes, 403 "Invalid authentication
    credentials" there for a header of another scheme, 401 in later
    releases. *)
Record Env : Type := mkEnv {
  utc_now : Z;        (* the instant of the call: microseconds since the epoch, UTC *)
  utc_offset : Z;     (* seconds the host's local time zone is ahead of UTC *)
  monotonic : Z;      (* [time.monotonic()], the cache's timer, in seconds *)
  uuid4 : string;     (* the next [str(uuid.uuid4())] *)
  gensalt : string;   (* the next salt passlib draws *)
  bearer_refusal : exn;   (* what [HTTPBearer] raises for this request if it refuses it *)
}.

(** [datetime.now()]: the host's local wall-clock reading, with no time zone
    attached. *)
Definition datetime_now (env : Env) : Z := utc_now env + utc_offset env * 1000000.

(** [dt + timedelta(seconds = n)] *)
Definition datetime_add_seconds (dt n : Z) : Z := dt + n * 1000000.

(** [calendar.timegm(dt.utctimetuple())]: a naive [datetime] is read as UTC and
    its microseconds are dropped. *)
Definition timegm_utctimetuple (dt : Z) : Z := dt / 1000000.

(** ** Python string slices *)

(** [s[:n]] *)
Fixpoint string_take (n : nat) (s : string) : string :=
  match n, s with
  | S n', String c s' => String c (string_take n' s')
  | _, _ => EmptyString
  end.

(** [s[n:]] *)
Fixpoint string_drop (n : nat) (s : string) : string :=
  match n, s with
  | S n', String _ s' => string_drop n' s'
  | _, _ => s
  end.

(** [c in s] *)
Fixpoint string_mem (c : Ascii.ascii) (s : string) : bool :=
  match s with
  | EmptyString => false
  | String c' s' => bool_decide (c' = c) || string_mem c s'
  end.

(** Stand-ins for the three parameters of the development, to run the model
    on concrete inputs: a tag that spells out the key and the message, a
    plain-text serialisation of header and payload, and a digest that spells
    out salt and secret. *)
Definition spelled_mac (key msg : string) : string := key +:+ "|" +:+ msg.

Definition plain_signing_input (alg : string) (p : gmap string json) : string :=
  alg +:+ "." +:+
  foldr (fun kv acc => kv.1 +:+ "=" +:+ column_value kv.2 +:+ ";" +:+ acc) "" (map_to_list p).

Definition spelled_digest (salt secret : string) : string := salt +:+ "|" +:+ secret.

(** A stand-in for Python's [int] on a [str]: it reads the numerals written
    with the digits 0 to 9 and refuses every other text. *)
Fixpoint decimal_digits (acc : Z) (s : string) : option Z :=
  match s with
  | EmptyString => Some acc
  | String c s' =>
      let d := Z.of_N (Ascii.N_of_ascii c) - 48 in
      if (0 <=? d) && (d <=? 9) then decimal_digits (10 * acc + d) s' else None
  end.

Definition decimal_int (s : string) : option Z :=
  match s with
  | EmptyString => None
  | _ => decimal_digits 0 s
  end.

(** The exception of [HTTPBearer] in the sample runs: the one of the
    handler's docstring. *)
Definition not_authenticated : exn :=
  HTTPException status.HTTP_403_FORBIDDEN "Not authenticated".

Section Service.

Set Default Proof Using "Type".

(** HMAC-SHA256 of a message under a key. *)
Variable hmac_sha256 : string -> string -> string.
(** The first two segments of the compact serialisation of a header with
    the given [alg] and a payload. *)
Variable jws_signing_input : string -> gmap string json -> string.
(** bcrypt's 31-character checksum of a secret of at most 72 bytes under a
    22-character salt, at passlib's default cost. *)
Variable bcrypt_digest : string -> string -> string.
(** Python's [int(s)] for a [str]: the integer it reads, [None] where it
    raises [ValueError]. *)
Variable int_of_str : string -> option Z.

(** ** passlib: [CryptContext(schemes = ["bcrypt"], deprecated = "auto")] *)

(** The modular-crypt prefix of the hashes the context writes: identifier
    [2b], cost 12. *)
Definition bcrypt_prefix : string := "$2b$12$".

(** What passlib does to a secret before it reaches bcrypt: more than 4096
    bytes raise [PasswordSizeError], a NUL byte raises [PasswordValueError],
    and bcrypt reads the first 72 bytes only. *)
Definition bcrypt_norm_secret (secret : string) : result string :=
  if 4096 <? Z.of_nat (String.length secret) then Raise PasswordSizeError
  else if string_mem Ascii.zero secret then Raise PasswordValueError
  else Return (string_take 72 secret).

(** [pwd_context.hash(secret)] with the salt it drew. *)
Definition pwd_context_hash (salt secret : string) : result string :=
  match bcrypt_norm_secret secret with
  | Raise e => Raise e
  | Return key => Return (bcrypt_prefix +:+ salt +:+ bcrypt_digest salt key)
  end.

(** [pwd_context.verify(secret, hash)]: the hash must be one of the
    context's scheme (here: carry [bcrypt_prefix]); its next 22 characters
    are the salt, the rest is the checksum the secret's is compared with. *)
Definition pwd_context_verify (secret hash : string) : result bool :=
  if negb (String.prefix bcrypt_prefix hash) then Raise UnknownHashError
  else match bcrypt_norm_secret secret with
       | Raise e => Raise e
       | Return key =>
           let data := string_drop 7 hash in
           let salt := string_take 22 data in
           let chk := string_drop 22 data in
           Return (bool_decide (chk = bcrypt_digest salt key))
       end.

(** ** PyJWT: [jwt.encode] and [jwt.decode] *)

(** The signature of an algorithm name; HS256 is the one modelled. *)
Definition jws_sign (alg key msg : string) : option string :=
  if bool_decide (alg = "HS256") then Some (hmac_sha256 key msg) else None.

(** [jwt.encode] turns a [datetime] under [exp], [iat] or [nbf] into an
    integer; it raises [TypeError] for an [iss] that is no string, and for a
    value JSON cannot carry. *)
Definition encode_time_claim (name : string) (v : pyval) : pyval :=
  match v with
  | PyDatetime dt =>
      if bool_decide (name ∈ ["exp"; "iat"; "nbf"]) then PyInt (timegm_utctimetuple dt)
      else v
  | _ => v
  end.

(** [json.dumps] of one value: a [datetime] is not serialisable. *)
Definition json_of (v : pyval) : option json :=
  match v with
  | PyStr s => Some (JString s)
  | PyInt z => Some (JNumber z)
  | PyDatetime _ => None
  end.

(** [jwt.encode(payload, key, algorithm = algorithm)] *)
Definition jwt_encode (payload : gmap string pyval) (key algorithm : string)
  : result token :=
  let payload := map_imap (fun name v => Some (encode_time_claim name v)) payload in
  match payload !! "iss" with
  | Some (PyInt _) | Some (PyDatetime _) => Raise TypeError
  | Some (PyStr _) | None =>
      if bool_decide (map_Forall (fun _ v => is_Some (json_of v)) payload) then
        let body := omap json_of payload in
        let msg := jws_signing_input algorithm body in
        match jws_sign algorithm key msg with
        | Some sig => Return (Compact (mkJws msg algorithm body sig))
        | None => Raise NotImplementedError
        end
      else Raise TypeError
  end.

(** Python truthiness of a claim value. *)
Definition truthy (v : json) : bool :=
  match v with
  | JString s => negb (bool_decide (s = ""))
  | JNumber z => negb (z =? 0)
  | JFloat (Finite m _) => negb (m =? 0)
  | JFloat _ => true
  | JBool b => b
  | JNull => false
  | JArray items => negb (bool_decide (items = []))
  | JObject members => negb (bool_decide (members = []))
  end.

(** [int(v)] for a claim value: [TypeError] for what is neither a number nor
    a string. *)
Definition python_int (v : json) : result Z :=
  match v with
  | JNumber z => Return z
  | JBool b => Return (if b then 1 else 0)
  | JFloat f => int_of_float f
  | JString s =>
      match int_of_str s with
      | Some z => Return z
      | None => Raise ValueError
      end
  | JNull | JArray _ | JObject _ => Raise TypeError
  end.

(** [try: int(v)  except ValueError: raise error]: any other exception of
    [int] passes through. *)
Definition int_claim (error : jwt_error) (v : json) : result Z :=
  match python_int v with
  | Raise ValueError => Raise (PyJWTError error)
  | r => r
  end.

(** The registered-claim checks [jwt.decode] runs by default (no audience,
    no issuer, no subject and no leeway given); each gives the exception it
    raises, if any.  [now] is the instant of the call in microseconds, the
    claims count seconds. *)
Definition check_iat (now : Z) (p : gmap string json) : option exn :=
  match p !! "iat" with
  | None => None
  | Some v =>
      match int_claim InvalidIssuedAtError v with
      | Raise e => Some e
      | Return iat =>
          if now <? iat * 1000000 then Some (PyJWTError ImmatureSignatureError) else None
      end
  end.

Definition check_nbf (now : Z) (p : gmap string json) : option exn :=
  match p !! "nbf" with
  | None => None
  | Some v =>
      match int_claim DecodeError v with
      | Raise e => Some e
      | Return nbf =>
          if now <? nbf * 1000000 then Some (PyJWTError ImmatureSignatureError) else None
      end
  end.

(** [if exp <= now: raise ExpiredSignatureError] *)
Definition check_exp (now : Z) (p : gmap string json) : option exn :=
  match p !! "exp" with
  | None => None
  | Some v =>
      match int_claim DecodeError v with
      | Raise e => Some e
      | Return exp =>
          if exp * 1000000 <=? now then Some (PyJWTError ExpiredSignatureError) else None
      end
  end.

(** With no audience expected, a token that names one is refused. *)
Definition check_aud (p : gmap string json) : option exn :=
  match p !! "aud" with
  | None => None
  | Some v => if truthy v then Some (PyJWTError InvalidAudienceError) else None
  end.

(** A subject must be a string. *)
Definition check_sub (p : gmap string json) : option exn :=
  match p !! "sub" with
  | None | Some (JString _) => None
  | Some _ => Some (PyJWTError InvalidSubjectError)
  end.

(** A token id must be a string. *)
Definition check_jti (p : gmap string json) : option exn :=
  match p !! "jti" with
  | None | Some (JString _) => None
  | Some _ => Some (PyJWTError InvalidJTIError)
  end.

(** The first check that fails, in the library's order. *)
Definition validate_claims (now : Z) (p : gmap string json) : option exn :=
  match check_iat now p with
  | Some e => Some e
  | None =>
  match check_nbf now p with
  | Some e => Some e
  | None =>
  match check_exp now p with
  | Some e => Some e
  | None =>
  match check_aud p with
  | Some e => Some e
  | None =>
  match check_sub p with
  | Some e => Some e
  | None => check_jti p
  end end end end end.

(** [jwt.decode(token, key, algorithms = algorithms)] at the instant [now]:
    the header's algorithm must be one of [algorithms], the signature must
    be the algorithm's over the signed bytes, and the claims must pass. *)
Definition jwt_decode (now : Z) (t : token) (key : string) (algorithms : list string)
  : result (gmap string json) :=
  match t with
  | Malformed _ => Raise (PyJWTError DecodeError)
  | Compact j =>
      if negb (bool_decide (alg j ∈ algorithms)) then Raise (PyJWTError InvalidAlgorithmError)
      else match jws_sign (alg j) key (signing_input j) with
           | None => Raise (PyJWTError InvalidAlgorithmError)
           | Some sig =>
               if negb (bool_decide (signature j = sig))
               then Raise (PyJWTError InvalidSignatureError)
               else match validate_claims now (payload j) with
                    | Some e => Raise e
                    | None => Return (payload j)
                    end
           end
  end.

(** ** [business_logic/services.py] *)

(** [User.create_user]: [None] when the email is taken; otherwise the
    password is hashed and the user stored. *)
Definition User_create_user (env : Env) (email password : string)
  : M Session (option models.User) :=
  fun db =>
    match UserRepository_get_by_email email db with
    | Some _ => ret None db
    | None =>
        (hashed_pass <- lift_result (pwd_context_hash (gensalt env) password);;
         user <- UserRepository_create (uuid4 env) email hashed_pass;;
         ret (Some user)) db
    end.

(** [User.get_by_email] *)
Definition User_get_by_email (email : string) (db : Session) : option models.User :=
  UserRepository_get_by_email email db.

(** [User.verify_credentials] *)
Definition User_verify_credentials (email password : string) (db : Session)
  : result bool :=
  match User_get_by_email email db with
  | None => Return false
  | Some user => pwd_context_verify password (models.password user)
  end.

(** [Post.add_post] *)
Definition Post_add_post (env : Env) (user_id : option json) (text : string)
  : M Session models.Post :=
  PostRepository_create (uuid4 env) user_id text.

(** [Post.get_post] *)
Definition Post_get_post (post_id : string) (db : Session) : option models.Post :=
  PostRepository_get_by_id post_id db.

(** [Post.get_list_of_posts] *)
Definition Post_get_list_of_posts (user_id : option json) (db : Session)
  : list schemas.PostResponse :=
  List.map (fun post => schemas.mkPostResponse (models.post_id post) (models.text post))
           (PostRepository_get_list_by_user user_id db).

(** [Post.delete_post] *)
Definition Post_delete_post (post_id : string) : M Session bool :=
  PostRepository_delete post_id.

(** [JWT.create_token]: the copy of [data] gets an [exp] of
    [datetime.now()] plus the configured seconds and is encoded. *)
Definition JWT_create_token (env : Env) (data : gmap string pyval) : result token :=
  let data_to_encode := data in
  let expire := datetime_add_seconds (datetime_now env) config.JWT_TOKEN_INVALIDATION_TIME in
  let data_to_encode := <["exp" := PyDatetime expire]> data_to_encode in
  jwt_encode data_to_encode config.JWT_KEY config.JWT_ALGORITHM.

(** [JWT._decode_token]: the payload, or [None] on a [jwt.PyJWTError]; any
    other exception passes through. *)
Definition JWT__decode_token (env : Env) (t : token) : result (option (gmap string json)) :=
  match jwt_decode (utc_now env) t config.JWT_KEY [config.JWT_ALGORITHM] with
  | Return p => Return (Some p)
  | Raise e => if is_PyJWTError e then Return None else Raise e
  end.

(** [JWT.validate_token] *)
Definition JWT_validate_token (env : Env) (t : token) : result bool :=
  match JWT__decode_token env t with
  | Return p => Return (bool_decide (p <> None))
  | Raise e => Raise e
  end.

(** [JWT.get_user_id]: [payload["sub"]] when the payload is a non-empty
    dictionary with that key. *)
Definition JWT_get_user_id (env : Env) (t : token) : result (option json) :=
  match JWT__decode_token env t with
  | Return (Some p) =>
      if negb (bool_decide (p = ∅)) && bool_decide (is_Some (p !! "sub"))
      then Return (p !! "sub") else Return None
  | Return None => Return None
  | Raise e => Raise e
  end.

(** ** cachetools: [TTLCache(maxsize, ttl)]

    The entries, least recently used first, each with the timer value at
    which it expires. *)
Record TTLCache : Type := mkTTLCache {
  maxsize : Z;
  ttl : Z;
  links : list (option json * (schemas.GetListOfPostsResponse * Z));
}.

Definition TTLCache_find (key : option json) (c : TTLCache)
  : option (schemas.GetListOfPostsResponse * Z) :=
  snd <$> List.find (fun l => bool_decide (l.1 = key)) (links c).

(** The entries of the other keys. *)
Definition TTLCache_others (key : option json) (c : TTLCache)
  : list (option json * (schemas.GetListOfPostsResponse * Z)) :=
  List.filter (fun l => negb (bool_decide (l.1 = key))) (links c).

(** [key in cache]: reads, and reorders nothing. *)
Definition TTLCache_contains (time : Z) (key : option json) (c : TTLCache) : bool :=
  match TTLCache_find key c with
  | Some (_, expires) => time <? expires
  | None => false
  end.

(** [cache[key]]: an entry that is found becomes the most recently used;
    [KeyError] when there is none or its time has come. *)
Definition TTLCache_getitem (time : Z) (key : option json)
  : M TTLCache schemas.GetListOfPostsResponse :=
  fun c =>
    match TTLCache_find key c with
    | Some (value, expires) =>
        let c' := mkTTLCache (maxsize c) (ttl c)
                    (TTLCache_others key c ++ [(key, (value, expires))]) in
        if time <? expires then (Return value, c') else (Raise KeyError, c')
    | None => (Raise KeyError, c)
    end.

(** [cache.expire(time)] *)
Definition TTLCache_expire (time : Z) (c : TTLCache) : TTLCache :=
  mkTTLCache (maxsize c) (ttl c) (List.filter (fun l => time <? l.2.2) (links c)).

(** [cache[key] = value]: expired entries go, then the least recently used
    ones while a new key would not fit, then the entry is written as the most
    recently used. *)
Definition TTLCache_setitem (time : Z) (key : option json)
    (value : schemas.GetListOfPostsResponse) (c : TTLCache) : TTLCache :=
  let c := TTLCache_expire time c in
  let others := TTLCache_others key c in
  let room := Z.to_nat (maxsize c - 1) in
  let kept :=
    match TTLCache_find key c with
    | Some _ => others
    | None => drop (length others - room)%nat others
    end in
  mkTTLCache (maxsize c) (ttl c) (kept ++ [(key, (value, time + ttl c))]).

(** [cache.clear()] *)
Definition TTLCache_clear (c : TTLCache) : TTLCache :=
  mkTTLCache (maxsize c) (ttl c) [].

(** The module-level [cache = TTLCache(maxsize = ITEM_LIMIT, ttl = TTL)]. *)
Definition new_cache : TTLCache :=
  mkTTLCache config.CACHE_ITEM_LIMIT config.CACHE_TIME_TO_LIVE [].

(** ** The state a request runs in: its session and the process's cache *)
Record World : Type := mkWorld {
  db : Session;
  cache : TTLCache;
}.

Definition with_db {A} (m : M Session A) : M World A :=
  fun w => let (r, db') := m (db w) in (r, mkWorld db' (cache w)).

Definition read_db {A} (f : Session -> A) : M World A :=
  fun w => (Return (f (db w)), w).

Definition read_db_result {A} (f : Session -> result A) : M World A :=
  fun w => (f (db w), w).

Definition with_cache {A} (m : M TTLCache A) : M World A :=
  fun w => let (r, cache') := m (cache w) in (r, mkWorld (db w) cache').

Definition read_cache {A} (f : TTLCache -> A) : M World A :=
  fun w => (Return (f (cache w)), w).

Definition write_cache (f : TTLCache -> TTLCache) : M World unit :=
  fun w => (Return tt, mkWorld (db w) (f (cache w))).

(** ** [routing/dependencies.py] *)

(** [security = HTTPBearer()]: the bearer credentials of the request, when
    the class finds some in its Authorization header; when it finds none
    ([None]) it raises its exception, and the request goes no further. *)
Definition security (env : Env) (authorization : option token) : result token :=
  match authorization with
  | Some credentials => Return credentials
  | None => Raise (bearer_refusal env)
  end.

(** [dependencies.validate_token] *)
Definition validate_token (env : Env) (authorization : option token) : result token :=
  match security env authorization with
  | Raise e => Raise e
  | Return credentials =>
      match JWT_validate_token env credentials with
      | Raise e => Raise e
      | Return valid =>
          if negb valid
          then Raise (HTTPException status.HTTP_401_UNAUTHORIZED "Invalid or expired token")
          else Return credentials
      end
  end.

(** [dependencies.validate_payload_size], on the length of the body. *)
Definition validate_payload_size (body_length : Z) : result unit :=
  if config.PAYLOAD_MAX_SIZE <? body_length
  then Raise (HTTPException status.HTTP_413_REQUEST_ENTITY_TOO_LARGE "Request is too large")
  else Return tt.

(** ** [routing/endpoints.py] *)

(** The [except Exception:] clause every handler ends with. *)
Definition internal_server_error {A} : M World A :=
  raise (HTTPException status.HTTP_500_INTERNAL_SERVER_ERROR "Internal server error occurred").

(** [POST /signup] *)
Definition sign_up (env : Env) (request : schemas.SignUpRequest)
  : M World schemas.SignUpResponse :=
  try_except_Exception
    (user <- with_db (User_create_user env (schemas.email request) (schemas.password request));;
     match user with
     | None =>
         raise (HTTPException status.HTTP_400_BAD_REQUEST "Email already registered")
     | Some user =>
         token <- lift_result (JWT_create_token env {["sub" := PyStr (models.user_id user)]});;
         ret (schemas.mkSignUpResponse token)
     end)
    internal_server_error.

(** [POST /login] *)
Definition login (env : Env) (request : schemas.LoginRequest)
  : M World schemas.LoginResponse :=
  try_except_Exception
    (is_valid <- read_db_result (User_verify_credentials (schemas.login_email request)
                                   (schemas.login_password request));;
     if negb is_valid
     then raise (HTTPException status.HTTP_401_UNAUTHORIZED
                   "Either email or password are incorrect")
     else
       user <- read_db (User_get_by_email (schemas.login_email request));;
       match user with
       | None => raise AttributeError
       | Some user =>
           token <- lift_result (JWT_create_token env {["sub" := PyStr (models.user_id user)]});;
           ret (schemas.mkLoginResponse token)
       end)
    internal_server_error.

(** [POST /add_post]; [token] is what [Depends(dependencies.validate_token)]
    returned. *)
Definition add_post (env : Env) (post : schemas.CreatePostRequest) (token : token)
  : M World schemas.CreatePostResponse :=
  try_except_Exception
    (user_id <- lift_result (JWT_get_user_id env token);;
     post <- with_db (Post_add_post env user_id (schemas.text post));;
     _ <- write_cache TTLCache_clear;;
     ret (schemas.mkCreatePostResponse (models.post_id post)))
    internal_server_error.

(** [GET /get_list_of_posts]; the cache key is [hashkey(user_id)]. *)
Definition get_list_of_posts (env : Env) (token : token)
  : M World schemas.GetListOfPostsResponse :=
  try_except_Exception
    (user_id <- lift_result (JWT_get_user_id env token);;
     let key := user_id in
     hit <- read_cache (TTLCache_contains (monotonic env) key);;
     if hit : bool
     then with_cache (TTLCache_getitem (monotonic env) key)
     else
       list_of_posts <- read_db (Post_get_list_of_posts user_id);;
       let response := schemas.mkGetListOfPostsResponse list_of_posts in
       _ <- write_cache (TTLCache_setitem (monotonic env) key response);;
       ret response)
    internal_server_error.

(** [POST /delete_post]; the second argument is what
    [Depends(dependencies.validate_token)] returned, which the handler binds
    to [_]. *)
Definition delete_post (post : schemas.DeletePostRequest) (_ : token)
  : M World schemas.DeletePostResponse :=
  try_except_Exception
    (result <- with_db (Post_delete_post (schemas.id post));;
     if negb result
     then raise (HTTPException status.HTTP_404_NOT_FOUND
                   ("No post matching ID " +:+ schemas.id post +:+ " was found."))
     else
       _ <- write_cache TTLCache_clear;;
       ret (schemas.mkDeletePostResponse ("post " +:+ schemas.id post +:+ " was deleted.")))
    internal_server_error.

(** ** The routes: dependencies first, then the handler *)

Definition route_add_post (env : Env) (authorization : option token)
    (body_length : Z) (post : schemas.CreatePostRequest)
  : M World schemas.CreatePostResponse :=
  token <- lift_result (validate_token env authorization);;
  _ <- lift_result (validate_payload_size body_length);;
  add_post env post token.

Definition route_get_list_of_posts (env : Env) (authorization : option token)
  : M World schemas.GetListOfPostsResponse :=
  token <- lift_result (validate_token env authorization);;
  get_list_of_posts env token.

Definition route_delete_post (env : Env) (authorization : option token)
    (post : schemas.DeletePostRequest)
  : M World schemas.DeletePostResponse :=
  token <- lift_result (validate_token env authorization);;
  delete_post post token.

(** The status of the response: the route's own on a normal return, the
    [HTTPException]'s when one reaches the framework, 500 for any other
    exception. *)
Definition status_code {A} (on_return : Z) (r : result A) : Z :=
  match r with
  | Return _ => on_return
  | Raise (HTTPException code _) => code
  | Raise _ => status.HTTP_500_INTERNAL_SERVER_ERROR
  end.

(** ** Notions the properties are stated with *)

(** The [exp] that [JWT.create_token] writes when called in [env]. *)
Definition issued_exp (env : Env) : Z :=
  timegm_utctimetuple
    (datetime_add_seconds (datetime_now env) config.JWT_TOKEN_INVALIDATION_TIME).

(** The token [JWT.create_token] returns for [{"sub": subject}] in [env]. *)
Definition issued_payload (env : Env) (subject : string) : gmap string json :=
  <["exp" := JNumber (issued_exp env)]> {["sub" := JString subject]}.

Definition issued_token (env : Env) (subject : string) : token :=
  let msg := jws_signing_input config.JWT_ALGORITHM (issued_payload env subject) in
  Compact (mkJws msg config.JWT_ALGORITHM (issued_payload env subject)
                 (hmac_sha256 config.JWT_KEY msg)).

(** The token's signature is valid under the configured secret and
    algorithm. *)
Definition signature_valid (t : token) : bool :=
  match t with
  | Malformed _ => false
  | Compact j =>
      bool_decide (alg j = config.JWT_ALGORITHM)
      && bool_decide (signature j = hmac_sha256 config.JWT_KEY (signing_input j))
  end.

(** The token's expiration has not passed at the instant of [env]: the
    integer [int] reads from its [exp] lies ahead.  A token without an
    expiration has none to pass; an [exp] that [int] reads no integer from is
    none that lies ahead. *)
Definition unexpired (env : Env) (t : token) : bool :=
  match t with
  | Malformed _ => false
  | Compact j =>
      match payload j !! "exp" with
      | None => true
      | Some v =>
          match python_int v with
          | Return exp => utc_now env <? exp * 1000000
          | Raise _ => false
          end
      end
  end.

(** The payload carries none of the other claims [jwt.decode] checks but a
    subject that is a string, and its expiration, if it has one, is a JSON
    integer or string. *)
Definition no_other_checked_claims (t : token) : bool :=
  match t with
  | Malformed _ => true
  | Compact j =>
      bool_decide (payload j !! "iat" = None)
      && bool_decide (payload j !! "nbf" = None)
      && bool_decide (payload j !! "aud" = None)
      && bool_decide (payload j !! "jti" = None)
      && match payload j !! "sub" with
         | None | Some (JString _) => true
         | Some _ => false
         end
      && match payload j !! "exp" with
         | None | Some (JNumber _) | Some (JString _) => true
         | Some _ => false
         end
  end.

(** A token signed with the configured key that carries the given payload. *)
Definition signed_token (p : gmap string json) : token :=
  let msg := jws_signing_input config.JWT_ALGORITHM p in
  Compact (mkJws msg config.JWT_ALGORITHM p (hmac_sha256 config.JWT_KEY msg)).


(** A handler's call returned, with this state. *)
Definition returned {A} (out : result A * World) (w' : World) : Prop :=
  exists a, out = (Return a, w').

(** A post was created or deleted: the handler returned normally. *)
Inductive post_written : World -> World -> Prop :=
  | post_created env post token w w' :
      returned (add_post env post token w) w' -> post_written w w'
  | post_deleted post token w w' :
      returned (delete_post post token w) w' -> post_written w w'.

(** ** Sample hosts, states and requests *)

(** 2023-11-14 22:13:20 UTC. *)
Definition sample_instant : Z := 1700000000000000.

(** A call [seconds] after [sample_instant], on a host [offset] seconds
    ahead of UTC, that draws [id] as its next UUID. *)
Definition sample_env (seconds offset : Z) (id : string) : Env :=
  mkEnv (sample_instant + seconds * 1000000) offset seconds id "abcdefghijklmnopqrstuv"
        not_authenticated.

Definition empty_world : World := mkWorld (mkSession [] []) new_cache.

(** Two users, one post of the first, and the cached listing of each. *)
Definition sample_world : World :=
  mkWorld
    (mkSession
       [models.mkUser "user-1" "a@x.com"
          "$2b$12$abcdefghijklmnopqrstuvabcdefghijklmnopqrstuv|pw1";
        models.mkUser "user-2" "b@x.com"
          "$2b$12$abcdefghijklmnopqrstuvabcdefghijklmnopqrstuv|pw2"]
       [models.mkPost "post-1" "user-1" "hello"])
    (mkTTLCache config.CACHE_ITEM_LIMIT config.CACHE_TIME_TO_LIVE
       [(Some (JString "user-1"),
         (schemas.mkGetListOfPostsResponse [schemas.mkPostResponse "post-1" "hello"], 300));
        (Some (JString "user-2"), (schemas.mkGetListOfPostsResponse [], 300))]).

(** Two secrets of 73 bytes that differ in the last one. *)
Definition long_secret (last : string) : string :=
  "aaaaaaaaaaaaaaaaaaaaaaaaaaaaaaaaaaaaaaaaaaaaaaaaaaaaaaaaaaaaaaaaaaaaaaaa" +:+ last.

(** ** Requests and what they keep *)

(** One handled request: a handler ran in [w] and left [w'], whatever it
    answered. *)
Inductive handled : World -> World -> Prop :=
  | handled_sign_up env request r w w' :
      sign_up env request w = (r, w') -> handled w w'
  | handled_login env request r w w' :
      login env request w = (r, w') -> handled w w'
  | handled_add_post env post token r w w' :
      add_post env post token w = (r, w') -> handled w w'
  | handled_get_list_of_posts env token r w w' :
      get_list_of_posts env token w = (r, w') -> handled w w'
  | handled_delete_post post token r w w' :
      delete_post post token w = (r, w') -> handled w w'.

(** A request that one of the five handlers answered with an exception. *)
Inductive failed : World -> exn -> World -> Prop :=
  | failed_sign_up env request e w w' :
      sign_up env request w = (Raise e, w') -> failed w e w'
  | failed_login env request e w w' :
      login env request w = (Raise e, w') -> failed w e w'
  | failed_add_post env post token e w w' :
      add_post env post token w = (Raise e, w') -> failed w e w'
  | failed_get_list_of_posts env token e w w' :
      get_list_of_posts env token w = (Raise e, w') -> failed w e w'
  | failed_delete_post post token e w w' :
      delete_post post token w = (Raise e, w') -> failed w e w'.

(** What [db/models.py] declares of the two tables: the primary keys and the
    emails are unique, and the owner of every post is a user. *)
Definition db_consistent (db : Session) : Prop :=
  NoDup (models.user_id <$> users db) /\
  NoDup (models.email <$> users db) /\
  NoDup (models.post_id <$> posts db) /\
  (forall p, p ∈ posts db ->
     is_Some (UserRepository_get_by_id (models.post_user_id p) db)).

(** The cache is the one [endpoints.py] creates, within its limit. *)
Definition cache_within_limit (c : TTLCache) : Prop :=
  maxsize c = config.CACHE_ITEM_LIMIT /\
  ttl c = config.CACHE_TIME_TO_LIVE /\
  Z.of_nat (length (links c)) <= config.CACHE_ITEM_LIMIT.

(** Every cached listing is the one storage gives for its key. *)
Definition cache_coherent (w : World) : Prop :=
  Forall (fun l => l.2.1 = schemas.mkGetListOfPostsResponse (Post_get_list_of_posts l.1 (db w)))
         (links (cache w)).

(** * Properties *)

(** Arithmetic goals mention none of the development's parameters. *)
Ltac arith :=
  try clear bcrypt_digest; try clear jws_signing_input; try clear hmac_sha256;
  try clear int_of_str;
  unfold config.JWT_TOKEN_INVALIDATION_TIME in *;
  Z.to_euclidean_division_equations; lia.

(** ** The repositories *)

Lemma find_some_holds {A} (f : A -> bool) (l : list A) (x : A) :
  List.find f l = Some x -> f x = true.
Proof.
  induction l as [|y l IH]; simpl; [discriminate|].
  destruct (f y) eqn:Hy; [intros [= <-]; exact Hy | exact IH].
Qed.

Lemma find_filter_negb {A} (f : A -> bool) (l : list A) :
  List.find f (List.filter (fun x => negb (f x)) l) = None.
Proof.
  induction l as [|y l IH]; simpl; [reflexivity|].
  destruct (f y) eqn:Hy; simpl; [exact IH | rewrite Hy; exact IH].
Qed.

Lemma PostRepository_get_by_id_post_id pid db p :
  PostRepository_get_by_id pid db = Some p -> models.post_id p = pid.
Proof.
  intros H. apply find_some_holds in H. by apply bool_decide_eq_true in H.
Qed.

Lemma elem_of_List_filter {A} (f : A -> bool) (l : list A) (x : A) :
  x ∈ List.filter f l <-> x ∈ l /\ f x = true.
Proof. by rewrite !list_elem_of_In, List.filter_In. Qed.

(** C8.  For every post id: when no row of [posts] has that id, [delete]
    returns [False] and leaves the session as it was; when a row has it,
    [delete] returns [True] and leaves a session in which [get_by_id] on that
    id finds nothing, the rows are the former ones with another id, the users
    are untouched, and a second [delete] returns [False]. *)
Theorem PostRepository_delete_spec (post_id : string) (db : Session) :
  ((forall p, p ∈ posts db -> models.post_id p <> post_id) ->
   PostRepository_delete post_id db = (Return false, db)) /\
  (forall p, p ∈ posts db -> models.post_id p = post_id ->
   exists db',
     PostRepository_delete post_id db = (Return true, db') /\
     PostRepository_get_by_id post_id db' = None /\
     (forall q, q ∈ posts db' <-> q ∈ posts db /\ models.post_id q <> post_id) /\
     users db' = users db /\
     PostRepository_delete post_id db' = (Return false, db')).
Proof.
  split.
  - intros Hnone. unfold PostRepository_delete.
    destruct (PostRepository_get_by_id post_id db) as [p|] eqn:Hget; [|reflexivity].
    exfalso. apply (Hnone p).
    + apply list_elem_of_In. by apply List.find_some in Hget as [Hin _].
    + by apply PostRepository_get_by_id_post_id in Hget.
  - intros p Hin Hid.
    destruct (PostRepository_get_by_id post_id db) as [p0|] eqn:Hget.
    + pose proof (PostRepository_get_by_id_post_id _ _ _ Hget) as Hid0.
      unfold PostRepository_delete at 1. rewrite Hget, Hid0.
      eexists; split; [reflexivity|].
      assert (Hgone : PostRepository_get_by_id post_id
                (mkSession (users db)
                   (List.filter (fun q => negb (bool_decide (models.post_id q = post_id)))
                                (posts db))) = None).
      { unfold PostRepository_get_by_id; simpl.
        apply (find_filter_negb (fun q => bool_decide (models.post_id q = post_id))). }
      split; [exact Hgone|]. split; [|split; [reflexivity|]].
      * intros q. cbn [posts]. rewrite elem_of_List_filter, negb_true_iff.
        by rewrite bool_decide_eq_false.
      * unfold PostRepository_delete. by rewrite Hgone.
    + exfalso. unfold PostRepository_get_by_id in Hget.
      apply list_elem_of_In in Hin.
      pose proof (List.find_none _ _ Hget p Hin) as Hp. cbn beta in Hp.
      by rewrite bool_decide_eq_true_2 in Hp.
Qed.

(** ** The credential hasher *)

Lemma string_take_app (a b : string) :
  string_take (String.length a) (a +:+ b) = a.
Proof. induction a as [|c a IH]; simpl; [by destruct b | by rewrite IH]. Qed.

Lemma string_drop_app (a b : string) :
  string_drop (String.length a) (a +:+ b) = b.
Proof. induction a as [|c a IH]; simpl; [by destruct b | exact IH]. Qed.

Lemma string_prefix_app (a b : string) : String.prefix a (a +:+ b) = true.
Proof.
  induction a as [|c a IH]; simpl; [by destruct b|].
  by destruct (Ascii.ascii_dec c c).
Qed.

Lemma bcrypt_norm_secret_Return secret key :
  bcrypt_norm_secret secret = Return key -> key = string_take 72 secret.
Proof.
  unfold bcrypt_norm_secret.
  destruct (4096 <? _); [discriminate|].
  destruct (string_mem _ _); [discriminate|]. by intros [= <-].
Qed.

(** Verifying any accepted secret against a hash the context wrote compares
    the two bcrypt checksums under the hash's salt. *)
Lemma pwd_context_verify_hash salt p p' h k :
  String.length salt = 22%nat ->
  pwd_context_hash salt p' = Return h ->
  bcrypt_norm_secret p = Return k ->
  pwd_context_verify p h =
    Return (bool_decide (bcrypt_digest salt (string_take 72 p')
                         = bcrypt_digest salt (string_take 72 p))).
Proof.
  intros Hsalt Hhash Hk. unfold pwd_context_hash in Hhash.
  destruct (bcrypt_norm_secret p') as [k'|] eqn:Hk'; [|discriminate].
  injection Hhash as <-.
  apply bcrypt_norm_secret_Return in Hk' as ->.
  unfold pwd_context_verify. rewrite Hk.
  apply bcrypt_norm_secret_Return in Hk as ->.
  rewrite string_prefix_app. cbn [negb]. change (string_drop 7 (bcrypt_prefix +:+ ?x)) with x.
  rewrite <- Hsalt, string_take_app, string_drop_app. reflexivity.
Qed.

(** ** The token service *)

(** What [jwt.encode] makes of the claims [JWT.create_token] hands it. *)
Lemma JWT_create_token_sub env subject :
  JWT_create_token env {["sub" := PyStr subject]} = Return (issued_token env subject).
Proof.
  unfold JWT_create_token, jwt_encode.
  rewrite <- insert_empty.
  rewrite !map_imap_insert, map_imap_empty. cbn [encode_time_claim].
  assert (Hexp : bool_decide ("exp" ∈ ["exp"; "iat"; "nbf"]) = true)
    by (apply bool_decide_eq_true_2; left).
  rewrite Hexp. fold (issued_exp env).
  rewrite bool_decide_eq_true_2.
  2:{ apply map_Forall_insert_2; [by eexists|].
      apply map_Forall_insert_2; [by eexists|]. apply map_Forall_empty. }
  rewrite (omap_insert_Some _ _ _ _ (JNumber (issued_exp env))) by reflexivity.
  rewrite (omap_insert_Some _ _ _ _ (JString subject)) by reflexivity.
  rewrite omap_empty, insert_empty. reflexivity.
Qed.

(** [JWT._decode_token]: [None] for a token that is malformed or not signed
    with the configured key and algorithm; for one that is, the payload when
    the claims pass, [None] when a check raises a [PyJWTError], and the
    exception of the check when it is another. *)
Lemma JWT__decode_token_spec env t :
  JWT__decode_token env t =
    match t with
    | Malformed _ => Return None
    | Compact j =>
        if signature_valid t then
          match validate_claims (utc_now env) (payload j) with
          | None => Return (Some (payload j))
          | Some e => if is_PyJWTError e then Return None else Raise e
          end
        else Return None
    end.
Proof.
  destruct t as [raw|j]; [reflexivity|].
  unfold JWT__decode_token, jwt_decode, signature_valid, jws_sign.
  change config.JWT_ALGORITHM with "HS256".
  destruct (decide (alg j = "HS256")) as [Halg|Halg].
  - rewrite (bool_decide_eq_true_2 (alg j ∈ ["HS256"])) by (rewrite Halg; left).
    rewrite (bool_decide_eq_true_2 _ Halg). cbn [negb andb].
    destruct (bool_decide (signature j = _)); cbn [negb andb]; [|reflexivity].
    by destruct (validate_claims _ _).
  - rewrite (bool_decide_eq_false_2 (alg j ∈ ["HS256"]))
      by (by rewrite list_elem_of_singleton).
    by rewrite (bool_decide_eq_false_2 _ Halg).
Qed.

Lemma JWT_validate_token_spec env t :
  JWT_validate_token env t =
    match t with
    | Malformed _ => Return false
    | Compact j =>
        if signature_valid t then
          match validate_claims (utc_now env) (payload j) with
          | None => Return true
          | Some e => if is_PyJWTError e then Return false else Raise e
          end
        else Return false
    end.
Proof.
  unfold JWT_validate_token. rewrite JWT__decode_token_spec.
  destruct t as [raw|j]; [reflexivity|].
  destruct (signature_valid (Compact j)); [|reflexivity].
  destruct (validate_claims _ _) as [e|]; [|reflexivity].
  by destruct (is_PyJWTError e).
Qed.

Lemma validate_claims_None now p :
  validate_claims now p = None <->
  check_iat now p = None /\ check_nbf now p = None /\
  check_exp now p = None /\ check_aud p = None /\
  check_sub p = None /\ check_jti p = None.
Proof.
  unfold validate_claims.
  destruct (check_iat now p), (check_nbf now p), (check_exp now p), (check_aud p),
    (check_sub p), (check_jti p); intuition congruence.
Qed.



(** Where the expiration is the only claim checked, the checks pass when it
    has not passed and raise a [PyJWTError] when it has. *)
Lemma validate_claims_plain env j :
  no_other_checked_claims (Compact j) = true ->
  unexpired env (Compact j) = true /\ validate_claims (utc_now env) (payload j) = None \/
  unexpired env (Compact j) = false /\
  exists e, validate_claims (utc_now env) (payload j) = Some (PyJWTError e).
Proof.
  unfold no_other_checked_claims.
  intros [[[[[Hiat%bool_decide_eq_true_1 Hnbf%bool_decide_eq_true_1]%andb_prop
                Haud%bool_decide_eq_true_1]%andb_prop
               Hjti%bool_decide_eq_true_1]%andb_prop Hsub]%andb_prop Hexp]%andb_prop.
  assert (Hrest : check_iat (utc_now env) (payload j) = None /\
                  check_nbf (utc_now env) (payload j) = None /\
                  check_aud (payload j) = None /\ check_sub (payload j) = None /\
                  check_jti (payload j) = None).
  { unfold check_iat, check_nbf, check_aud, check_sub, check_jti.
    rewrite Hiat, Hnbf, Haud, Hjti.
    by destruct (payload j !! "sub") as [[]|]. }
  destruct Hrest as (Hciat & Hcnbf & Hcaud & Hcsub & Hcjti).
  unfold validate_claims. rewrite Hciat, Hcnbf, Hcaud, Hcsub, Hcjti.
  unfold check_exp, unexpired, int_claim.
  destruct (payload j !! "exp") as [[s|exp| | | | |]|]; try discriminate; [| |by left].
  - cbn [python_int]. destruct (int_of_str s) as [exp|]; [|right; by eauto].
    rewrite Z.ltb_antisym.
    destruct (exp * 1000000 <=? utc_now env); [right; by eauto|by left].
  - cbn [python_int]. rewrite Z.ltb_antisym.
    destruct (exp * 1000000 <=? utc_now env); [right; by eauto|by left].
Qed.

Lemma JWT__decode_token_plain env t :
  no_other_checked_claims t = true ->
  JWT__decode_token env t =
    Return (if signature_valid t && unexpired env t
            then match t with Compact j => Some (payload j) | Malformed _ => None end
            else None).
Proof.
  intros Hplain. rewrite JWT__decode_token_spec.
  destruct t as [raw|j]; [reflexivity|].
  destruct (signature_valid (Compact j)); [|reflexivity]. cbn [andb].
  by destruct (validate_claims_plain env j Hplain) as [[-> ->]|[-> [e ->]]].
Qed.

(** Without [iat], [nbf], [aud] and [jti], the expiration is the only claim
    that decides. *)
Lemma JWT_validate_token_plain env t :
  no_other_checked_claims t = true ->
  JWT_validate_token env t = Return (signature_valid t && unexpired env t).
Proof.
  intros Hplain. unfold JWT_validate_token. rewrite JWT__decode_token_plain by done.
  destruct (signature_valid t && unexpired env t) eqn:Hacc; [|reflexivity].
  destruct t; [discriminate|reflexivity].
Qed.





(** ** Tokens the service issues *)

Lemma issued_exp_eq env :
  issued_exp env =
    utc_now env / 1000000 + utc_offset env + config.JWT_TOKEN_INVALIDATION_TIME.
Proof.
  unfold issued_exp, timegm_utctimetuple, datetime_add_seconds, datetime_now.
  rewrite !Z.div_add by done. reflexivity.
Qed.

Lemma issued_token_signature_valid env subject :
  signature_valid (issued_token env subject) = true.
Proof.
  unfold signature_valid, issued_token; cbn [alg signature signing_input].
  by rewrite !bool_decide_eq_true_2.
Qed.

Lemma issued_token_plain env subject :
  no_other_checked_claims (issued_token env subject) = true.
Proof.
  unfold no_other_checked_claims, issued_token, issued_payload; cbn [payload].
  by rewrite !bool_decide_eq_true_2 by by simplify_map_eq.
Qed.

Lemma issued_token_unexpired issue verify subject :
  unexpired verify (issued_token issue subject)
  = (utc_now verify <? issued_exp issue * 1000000).
Proof.
  unfold unexpired, issued_token, issued_payload; cbn [payload].
  by rewrite lookup_insert_eq.
Qed.

(** A token issued in [issue] and verified in [verify]. *)
Lemma JWT_validate_token_issued issue verify subject :
  JWT_validate_token verify (issued_token issue subject)
  = Return (utc_now verify <? issued_exp issue * 1000000).
Proof.
  rewrite JWT_validate_token_plain by apply issued_token_plain.
  by rewrite issued_token_signature_valid, issued_token_unexpired.
Qed.

Lemma JWT_get_user_id_issued issue verify subject :
  JWT_get_user_id verify (issued_token issue subject)
  = Return (if utc_now verify <? issued_exp issue * 1000000
            then Some (JString subject) else None).
Proof.
  unfold JWT_get_user_id.
  rewrite JWT__decode_token_plain by apply issued_token_plain.
  rewrite issued_token_signature_valid, issued_token_unexpired. cbn [andb].
  destruct (utc_now verify <? _); [|reflexivity].
  unfold issued_token, issued_payload; cbn [payload].
  rewrite bool_decide_eq_false_2 by apply insert_non_empty.
  rewrite lookup_insert_ne, lookup_singleton_eq by done.
  by rewrite bool_decide_eq_true_2.
Qed.

(** Verified at the instant of its issue, a token passes exactly when the
    host's clock is less than the invalidation time behind UTC. *)
Lemma issued_token_valid_at_once env subject :
  JWT_validate_token env (issued_token env subject)
  = Return (- config.JWT_TOKEN_INVALIDATION_TIME <? utc_offset env).
Proof.
  rewrite JWT_validate_token_issued, issued_exp_eq. f_equal.
  unfold config.JWT_TOKEN_INVALIDATION_TIME.
  destruct (Z.ltb_spec (utc_now env)
              ((utc_now env / 1000000 + utc_offset env + 60 * 60 * 3) * 1000000));
  destruct (Z.ltb_spec (- (60 * 60 * 3)) (utc_offset env)); try reflexivity;
    exfalso; arith.
Qed.

(** ** Credential verification *)



(** C9 (as amended).  For a hash [h] the context wrote for [p'] and every
    secret [p] it accepts: [verify(p', h)] is [True]; [verify(p, h)] is [True]
    exactly when the bcrypt checksums of the first 72 bytes of [p'] and of [p]
    under the salt of [h] are equal; so it is [True] when [p] and [p'] share
    their first 72 bytes, and [False] when the two checksums differ. *)
Theorem pwd_context_hash_then_verify salt p p' h k :
  String.length salt = 22%nat ->
  pwd_context_hash salt p' = Return h ->
  bcrypt_norm_secret p = Return k ->
  pwd_context_verify p' h = Return true /\
  pwd_context_verify p h =
    Return (bool_decide (bcrypt_digest salt (string_take 72 p')
                         = bcrypt_digest salt (string_take 72 p))) /\
  (string_take 72 p = string_take 72 p' -> pwd_context_verify p h = Return true) /\
  (bcrypt_digest salt (string_take 72 p') <> bcrypt_digest salt (string_take 72 p) ->
   pwd_context_verify p h = Return false).
Proof.
  intros Hsalt Hhash Hk.
  pose proof (pwd_context_verify_hash _ _ _ _ _ Hsalt Hhash Hk) as Hp.
  assert (Hk' : exists k', bcrypt_norm_secret p' = Return k').
  { unfold pwd_context_hash in Hhash.
    destruct (bcrypt_norm_secret p'); [by eexists|discriminate]. }
  destruct Hk' as [k' Hk'].
  pose proof (pwd_context_verify_hash _ _ _ _ _ Hsalt Hhash Hk') as Hp'.
  rewrite bool_decide_eq_true_2 in Hp' by reflexivity.
  repeat split; [exact Hp'|exact Hp| |].
  - intros Heq. rewrite Hp, Heq. by rewrite bool_decide_eq_true_2.
  - intros Hne. rewrite Hp. by rewrite bool_decide_eq_false_2.
Qed.

(** ** The handlers *)

Lemma returned_run {A} (out : result A * World) a :
  out.1 = Return a -> returned out out.2.
Proof. destruct out as [r w]. simpl. intros ->. by exists a. Qed.

Lemma bind_Return_inv {S A B} (m : M S A) (k : A -> M S B) s b s' :
  (x <- m;; k x) s = (Return b, s') ->
  exists a s1, m s = (Return a, s1) /\ k a s1 = (Return b, s').
Proof.
  unfold bind. destruct (m s) as [[a|e] s1]; [|discriminate].
  intros H. by exists a, s1.
Qed.

Lemma bind_Return {S A B} (m : M S A) (k : A -> M S B) s a s1 :
  m s = (Return a, s1) -> (x <- m;; k x) s = k a s1.
Proof. unfold bind. by intros ->. Qed.

Lemma bind_Raise {S A B} (m : M S A) (k : A -> M S B) s e s1 :
  m s = (Raise e, s1) -> (x <- m;; k x) s = (Raise e, s1).
Proof. unfold bind. by intros ->. Qed.

(** A handler returns only what the body of its [try] returned. *)
Lemma try_except_Return_inv {A} (body : M World A) w a w' :
  try_except_Exception body internal_server_error w = (Return a, w') ->
  body w = (Return a, w').
Proof.
  unfold try_except_Exception. destruct (body w) as [[a0|e] w0]; [done|discriminate].
Qed.

(** Whatever the body of its [try] raises, the handler raises the 500. *)
Lemma try_except_Raise {A} (body : M World A) w e w' :
  body w = (Raise e, w') ->
  try_except_Exception body internal_server_error w
  = (Raise (HTTPException status.HTTP_500_INTERNAL_SERVER_ERROR
              "Internal server error occurred"), w').
Proof. unfold try_except_Exception. by intros ->. Qed.

Lemma with_db_inv {A} (m : M Session A) w r w' :
  with_db m w = (r, w') ->
  exists db', m (db w) = (r, db') /\ w' = mkWorld db' (cache w).
Proof.
  unfold with_db. destruct (m (db w)) as [r0 db']. intros [= <- <-]. by exists db'.
Qed.

Lemma lift_result_inv {S A} (r : result A) (s : S) r' s' :
  lift_result r s = (r', s') -> r = r' /\ s = s'.
Proof. by intros [= <- <-]. Qed.

Lemma find_app_None {A} (f : A -> bool) (l : list A) (x : A) :
  List.find f l = None -> f x = true -> List.find f (l ++ [x]) = Some x.
Proof.
  induction l as [|y l IH]; simpl; intros Hnone Hx; [by rewrite Hx|].
  destruct (f y); [discriminate|]. by apply IH.
Qed.

(** [sign_up] on an email that is taken: the 400 raised inside the [try] is
    caught by the handler's own [except Exception] and replaced. *)
Lemma sign_up_email_taken env request w user :
  UserRepository_get_by_email (schemas.email request) (db w) = Some user ->
  sign_up env request w
  = (Raise (HTTPException status.HTTP_500_INTERNAL_SERVER_ERROR
              "Internal server error occurred"), w).
Proof.
  intros Htaken. unfold sign_up, try_except_Exception, bind, with_db, User_create_user.
  rewrite Htaken. destruct w; reflexivity.
Qed.

(** At the service, the second registration is the conflict: [create_user]
    returns [None] for an email that is taken. *)
Lemma User_create_user_email_taken env email password db user :
  UserRepository_get_by_email email db = Some user ->
  User_create_user env email password db = (Return None, db).
Proof. intros Htaken. unfold User_create_user. by rewrite Htaken. Qed.

(** [sign_up] with a free email, a fresh UUID and a password the hasher
    accepts stores the user and returns a token for the new id. *)
Lemma sign_up_free_email env request w key :
  UserRepository_get_by_email (schemas.email request) (db w) = None ->
  UserRepository_get_by_id (uuid4 env) (db w) = None ->
  bcrypt_norm_secret (schemas.password request) = Return key ->
  exists w',
    sign_up env request w
    = (Return (schemas.mkSignUpResponse (issued_token env (uuid4 env))), w') /\
    is_Some (UserRepository_get_by_email (schemas.email request) (db w')).
Proof.
  intros Hfree Hfresh Hkey.
  set (user := models.mkUser (uuid4 env) (schemas.email request)
                 (bcrypt_prefix +:+ gensalt env +:+ bcrypt_digest (gensalt env) key)).
  exists (mkWorld (mkSession (users (db w) ++ [user]) (posts (db w))) (cache w)).
  split.
  - unfold sign_up, try_except_Exception.
    rewrite (bind_Return _ _ w (Some user)
               (mkWorld (mkSession (users (db w) ++ [user]) (posts (db w))) (cache w))).
    + cbn [models.user_id user]. unfold bind, lift_result, ret.
      by rewrite JWT_create_token_sub.
    + unfold with_db, User_create_user. rewrite Hfree.
      unfold bind, lift_result, pwd_context_hash, UserRepository_create, ret.
      rewrite Hkey, Hfresh, Hfree.
      by rewrite !bool_decide_eq_false_2 by (by intros [? ?]).
  - cbn [db users]. unfold UserRepository_get_by_email in *. cbn [users].
    erewrite find_app_None; [by eexists|exact Hfree|]. by apply bool_decide_eq_true_2.
Qed.

(** After a [sign_up] that returned, the email is taken. *)
Lemma sign_up_returned_email_taken env request w w' :
  returned (sign_up env request w) w' ->
  is_Some (UserRepository_get_by_email (schemas.email request) (db w')).
Proof.
  intros [response Hrun]. unfold sign_up in Hrun.
  apply try_except_Return_inv, bind_Return_inv in Hrun as (created & w1 & Hcreate & Hrest).
  apply with_db_inv in Hcreate as (db1 & Hcreate & ->).
  destruct created as [user|]; [|discriminate].
  apply bind_Return_inv in Hrest as (tok & w2 & [_ <-]%lift_result_inv & [= _ <-]).
  cbn [db]. revert Hcreate. unfold User_create_user.
  destruct (UserRepository_get_by_email (schemas.email request) (db w)) eqn:Hfree;
    [discriminate|].
  intros (hashed & db2 & [_ <-]%lift_result_inv & Hstore)%bind_Return_inv.
  apply bind_Return_inv in Hstore as (stored & db3 & Hstore & [= _ <-]).
  revert Hstore. unfold UserRepository_create.
  destruct (bool_decide (is_Some (UserRepository_get_by_id _ _))); [discriminate|].
  rewrite Hfree. rewrite bool_decide_eq_false_2 by (by intros [? ?]).
  intros [= _ <-].
  unfold UserRepository_get_by_email in *. cbn [users].
  erewrite find_app_None; [by eexists|exact Hfree|].
  by apply bool_decide_eq_true_2.
Qed.

(** C1 (what the code does).  When a registration has returned, every later
    registration with the same email ends in the handler's 500 response, not
    in the 400 it raises for a taken email. *)
Theorem sign_up_same_email_twice env1 env2 request1 request2 w w' :
  returned (sign_up env1 request1 w) w' ->
  schemas.email request2 = schemas.email request1 ->
  sign_up env2 request2 w'
  = (Raise (HTTPException status.HTTP_500_INTERNAL_SERVER_ERROR
              "Internal server error occurred"), w') /\
  status_code status.HTTP_201_CREATED (sign_up env2 request2 w').1
  = status.HTTP_500_INTERNAL_SERVER_ERROR.
Proof.
  intros Hfirst Hsame.
  destruct (sign_up_returned_email_taken _ _ _ _ Hfirst) as [user Huser].
  rewrite <- Hsame in Huser.
  rewrite (sign_up_email_taken _ _ _ _ Huser). by split.
Qed.

(** A post handler that returned has cleared the cache on its way. *)
Lemma add_post_returned_cache env post token w w' :
  returned (add_post env post token w) w' -> cache w' = TTLCache_clear (cache w).
Proof.
  intros [response Hrun]. unfold add_post in Hrun.
  apply try_except_Return_inv, bind_Return_inv in Hrun as (uid & w1 & Huid & Hrun).
  apply lift_result_inv in Huid as [_ <-].
  apply bind_Return_inv in Hrun as (stored & w2 & Hstore & Hrun).
  apply with_db_inv in Hstore as (db' & _ & ->).
  apply bind_Return_inv in Hrun as ([] & w3 & [= <-] & [= _ <-]). reflexivity.
Qed.

Lemma delete_post_returned_cache post token w w' :
  returned (delete_post post token w) w' -> cache w' = TTLCache_clear (cache w).
Proof.
  intros [response Hrun]. unfold delete_post in Hrun.
  apply try_except_Return_inv, bind_Return_inv in Hrun as (found & w1 & Hdel & Hrun).
  apply with_db_inv in Hdel as (db' & _ & ->).
  destruct found; [|discriminate]. cbn [negb] in Hrun.
  apply bind_Return_inv in Hrun as ([] & w3 & [= <-] & [= _ <-]). reflexivity.
Qed.

(** C5.  After a post creation or a post deletion that succeeded, the cache
    holds no entry: whatever the key (the user) and the time, [key in cache]
    is [False] and [cache[key]] raises [KeyError]; and the listing handler,
    for whichever user a token names, answers from storage. *)
Theorem cache_cleared_after_post_written w w' :
  post_written w w' ->
  links (cache w') = [] /\
  (forall time key,
     TTLCache_contains time key (cache w') = false /\
     (TTLCache_getitem time key (cache w')).1 = Raise KeyError) /\
  (forall env token user_id,
     JWT_get_user_id env token = Return user_id ->
     (get_list_of_posts env token w').1
     = Return (schemas.mkGetListOfPostsResponse (Post_get_list_of_posts user_id (db w')))).
Proof.
  intros Hwritten.
  assert (Hcache : cache w' = TTLCache_clear (cache w)).
  { destruct Hwritten as [env post token w w' Hrun | post token w w' Hrun];
      eauto using add_post_returned_cache, delete_post_returned_cache. }
  assert (Hmiss : forall time key, TTLCache_contains time key (cache w') = false)
    by (by intros; rewrite Hcache).
  split; [by rewrite Hcache|]. split.
  - intros time key. split; [apply Hmiss|by rewrite Hcache].
  - intros env token user_id Huid.
    unfold get_list_of_posts, try_except_Exception.
    rewrite (bind_Return _ _ w' user_id w') by (by unfold lift_result; rewrite Huid).
    rewrite (bind_Return _ _ w' false w') by (by unfold read_cache; rewrite Hmiss).
    reflexivity.
Qed.

(** C6.  The deletion route gives the same response and leaves the same state
    for any two tokens that pass validation, whenever each is presented: which
    user a token names plays no part, and the handler never reads the token. *)
Theorem route_delete_post_ignores_subject env1 env2 post t1 t2 w :
  JWT_validate_token env1 t1 = Return true ->
  JWT_validate_token env2 t2 = Return true ->
  route_delete_post env1 (Some t1) post w = route_delete_post env2 (Some t2) post w /\
  route_delete_post env1 (Some t1) post w
  = try_except_Exception
      (result <- with_db (Post_delete_post (schemas.id post));;
       if negb result
       then raise (HTTPException status.HTTP_404_NOT_FOUND
                     ("No post matching ID " +:+ schemas.id post +:+ " was found."))
       else
         _ <- write_cache TTLCache_clear;;
         ret (schemas.mkDeletePostResponse ("post " +:+ schemas.id post +:+ " was deleted.")))
      internal_server_error w.
Proof.
  intros H1 H2.
  assert (Hroute : forall env t, JWT_validate_token env t = Return true ->
            route_delete_post env (Some t) post w = delete_post post t w).
  { intros env t Ht. unfold route_delete_post.
    apply bind_Return. unfold lift_result, validate_token, security. by rewrite Ht. }
  rewrite (Hroute env1 t1 H1), (Hroute env2 t2 H2). by split.
Qed.

(** ** A valid token without a subject *)







(** Deleting a post that does not exist: the 404 raised inside the [try] is
    caught by the handler's own [except Exception]; the response is the 500,
    and storage and cache stay as they were. *)
Theorem delete_post_missing_is_500 post token w :
  PostRepository_get_by_id (schemas.id post) (db w) = None ->
  delete_post post token w
  = (Raise (HTTPException status.HTTP_500_INTERNAL_SERVER_ERROR
              "Internal server error occurred"), w).
Proof.
  intros Hmissing.
  apply (try_except_Raise _ w
           (HTTPException status.HTTP_404_NOT_FOUND
              ("No post matching ID " +:+ schemas.id post +:+ " was found.")) w).
  rewrite (bind_Return _ _ w false w); [reflexivity|].
  unfold with_db, Post_delete_post, PostRepository_delete. rewrite Hmissing.
  by destruct w.
Qed.

(** Logging in with credentials that do not verify: the 401 raised inside the
    [try] is caught by the handler's own [except Exception]; the response is
    the 500. *)
Theorem login_wrong_credentials_is_500 env request w :
  User_verify_credentials (schemas.login_email request) (schemas.login_password request)
    (db w) = Return false ->
  login env request w
  = (Raise (HTTPException status.HTTP_500_INTERNAL_SERVER_ERROR
              "Internal server error occurred"), w).
Proof.
  intros Hwrong.
  apply (try_except_Raise _ w
           (HTTPException status.HTTP_401_UNAUTHORIZED
              "Either email or password are incorrect") w).
  rewrite (bind_Return _ _ w false w); [reflexivity|].
  by unfold read_db_result; rewrite Hwrong.
Qed.

(** ** The lifetime of an issued token *)

(** Issued and verified at once on a host whose clock is less than the
    invalidation time behind UTC, a token for [subject] is valid and yields
    [subject]. *)
Theorem issue_then_verify_at_once env subject :
  - config.JWT_TOKEN_INVALIDATION_TIME < utc_offset env ->
  exists t,
    JWT_create_token env {["sub" := PyStr subject]} = Return t /\
    JWT_validate_token env t = Return true /\
    JWT_get_user_id env t = Return (Some (JString subject)).
Proof.
  intros Hoffset. exists (issued_token env subject).
  split; [apply JWT_create_token_sub|].
  pose proof (issued_token_valid_at_once env subject) as Hvalid.
  rewrite (proj2 (Z.ltb_lt _ _) Hoffset) in Hvalid. split; [exact Hvalid|].
  rewrite JWT_validate_token_issued in Hvalid. injection Hvalid as Hvalid.
  by rewrite JWT_get_user_id_issued, Hvalid.
Qed.

(** C2 (what the code does).  On a host whose local clock is the invalidation
    time or more behind UTC, the token [JWT.create_token] returns is already
    expired: verified at the instant of its issue it is invalid and yields no
    subject. *)
Theorem issue_then_verify_behind_utc env subject :
  utc_offset env <= - config.JWT_TOKEN_INVALIDATION_TIME ->
  exists t,
    JWT_create_token env {["sub" := PyStr subject]} = Return t /\
    JWT_validate_token env t = Return false /\
    JWT_get_user_id env t = Return None.
Proof.
  intros Hoffset. exists (issued_token env subject).
  split; [apply JWT_create_token_sub|].
  pose proof (issued_token_valid_at_once env subject) as Hvalid.
  rewrite (proj2 (Z.ltb_ge _ _) Hoffset) in Hvalid. split; [exact Hvalid|].
  rewrite JWT_validate_token_issued in Hvalid. injection Hvalid as Hvalid.
  by rewrite JWT_get_user_id_issued, Hvalid.
Qed.

(** On a host whose local clock is not ahead of UTC, a token verified once
    the invalidation time has passed since its issue is invalid. *)
Theorem issued_token_expires_after_ttl issue verify subject t :
  utc_offset issue <= 0 ->
  JWT_create_token issue {["sub" := PyStr subject]} = Return t ->
  utc_now issue + config.JWT_TOKEN_INVALIDATION_TIME * 1000000 <= utc_now verify ->
  JWT_validate_token verify t = Return false.
Proof.
  intros Hoffset Hissue Helapsed.
  rewrite JWT_create_token_sub in Hissue. injection Hissue as <-.
  rewrite JWT_validate_token_issued, issued_exp_eq.
  f_equal. apply Z.ltb_ge. arith.
Qed.

(** C4 (what the code does).  The expiration written is the host's local
    wall-clock reading, taken as UTC, plus the invalidation time.  On a host
    whose local clock is ahead of UTC a token is therefore still valid when
    the invalidation time has passed since its issue: it lives for the
    invalidation time plus the host's offset from UTC, less the fraction of a
    second dropped at issue. *)
Theorem issued_token_outlives_ttl issue verify subject t :
  0 < utc_offset issue ->
  JWT_create_token issue {["sub" := PyStr subject]} = Return t ->
  utc_now issue + config.JWT_TOKEN_INVALIDATION_TIME * 1000000 <= utc_now verify ->
  utc_now verify
    <= utc_now issue
       + (config.JWT_TOKEN_INVALIDATION_TIME + utc_offset issue - 1) * 1000000 ->
  JWT_validate_token verify t = Return true.
Proof.
  intros Hoffset Hissue Helapsed Hbefore.
  rewrite JWT_create_token_sub in Hissue. injection Hissue as <-.
  rewrite JWT_validate_token_issued, issued_exp_eq.
  f_equal. apply Z.ltb_lt. arith.
Qed.

(** Distinct secrets with the same first 72 bytes verify against each
    other's hash. *)
Lemma pwd_context_verify_shared_prefix salt p p' h k :
  String.length salt = 22%nat ->
  pwd_context_hash salt p' = Return h ->
  bcrypt_norm_secret p = Return k ->
  string_take 72 p = string_take 72 p' ->
  pwd_context_verify p h = Return true.
Proof.
  intros Hsalt Hhash Hk Heq.
  rewrite (pwd_context_verify_hash _ _ _ _ _ Hsalt Hhash Hk), Heq.
  by rewrite bool_decide_eq_true_2.
Qed.


(** ** What each handler does to the state *)

Lemma find_app_Some {A} (f : A -> bool) (l k : list A) (x : A) :
  List.find f l = Some x -> List.find f (l ++ k) = Some x.
Proof.
  induction l as [|y l IH]; simpl; [discriminate|].
  destruct (f y); [done|exact IH].
Qed.

Lemma find_None_fmap {A} (g : A -> string) (key : string) (l : list A) :
  List.find (fun x => bool_decide (g x = key)) l = None -> key ∉ g <$> l.
Proof.
  induction l as [|y l IH]; simpl; [intros _; apply not_elem_of_nil|].
  case_bool_decide as Hy; [discriminate|]. intros Hnone.
  rewrite not_elem_of_cons. split; [congruence|by apply IH].
Qed.

(** [sign_up] leaves posts and cache alone; it stores at most one user, under
    a free id and a free email, and then returns the token for that id. *)
Lemma sign_up_effect env request r w w' :
  sign_up env request w = (r, w') ->
  cache w' = cache w /\ posts (db w') = posts (db w) /\
  (users (db w') = users (db w) /\
   r = Raise (HTTPException status.HTTP_500_INTERNAL_SERVER_ERROR
                "Internal server error occurred") \/
   exists hashed,
     users (db w')
     = (users (db w) ++ [models.mkUser (uuid4 env) (schemas.email request) hashed])%list /\
     UserRepository_get_by_id (uuid4 env) (db w) = None /\
     UserRepository_get_by_email (schemas.email request) (db w) = None /\
     pwd_context_hash (gensalt env) (schemas.password request) = Return hashed /\
     r = Return (schemas.mkSignUpResponse (issued_token env (uuid4 env)))).
Proof.
  unfold sign_up, with_db, User_create_user, UserRepository_create, internal_server_error,
    try_except_Exception, bind, lift_result, ret, raise.
  destruct w as [[us ps] c]; cbn [db cache users posts].
  destruct (UserRepository_get_by_email _ _) eqn:Hemail;
    [intros [= <- <-]; cbn; auto|].
  destruct (pwd_context_hash _ _) as [hashed|] eqn:Hhash;
    [|intros [= <- <-]; cbn; auto].
  destruct (UserRepository_get_by_id _ _) eqn:Hid.
  { rewrite bool_decide_eq_true_2 by (by eexists). intros [= <- <-]; cbn; auto. }
  rewrite !bool_decide_eq_false_2 by (by intros [? ?]).
  cbn [models.user_id]. rewrite JWT_create_token_sub.
  intros [= <- <-]; cbn. do 2 (split; [done|]). right. by exists hashed.
Qed.

(** [login] changes nothing, whatever it answers. *)
Lemma login_effect env request r w w' :
  login env request w = (r, w') -> w' = w.
Proof.
  unfold login, read_db_result, read_db, internal_server_error,
    try_except_Exception, bind, lift_result, ret, raise.
  destruct (User_verify_credentials _ _ _) as [[|]|]; cbn [negb];
    try (by intros [= _ <-]).
  destruct (User_get_by_email _ _); [|by intros [= _ <-]].
  destruct (JWT_create_token _ _); by intros [= _ <-].
Qed.

(** A handler on whose token [JWT.get_user_id] raises answers the 500 and
    changes nothing. *)
Lemma add_post_token_raises env post token w e :
  JWT_get_user_id env token = Raise e ->
  add_post env post token w
  = (Raise (HTTPException status.HTTP_500_INTERNAL_SERVER_ERROR
              "Internal server error occurred"), w).
Proof.
  intros Huid. apply (try_except_Raise _ w e w).
  apply bind_Raise. by unfold lift_result; rewrite Huid.
Qed.

Lemma get_list_of_posts_token_raises env token w e :
  JWT_get_user_id env token = Raise e ->
  get_list_of_posts env token w
  = (Raise (HTTPException status.HTTP_500_INTERNAL_SERVER_ERROR
              "Internal server error occurred"), w).
Proof.
  intros Huid. apply (try_except_Raise _ w e w).
  apply bind_Raise. by unfold lift_result; rewrite Huid.
Qed.

(** [add_post] for a token that names an existing user, with a fresh post
    id: the post is stored under that user, the cache is cleared, and the
    id is returned. *)
Lemma add_post_stores env post token w v :
  JWT_get_user_id env token = Return (Some v) ->
  is_Some (UserRepository_get_by_id (column_value v) (db w)) ->
  PostRepository_get_by_id (uuid4 env) (db w) = None ->
  add_post env post token w
  = (Return (schemas.mkCreatePostResponse (uuid4 env)),
     mkWorld (mkSession (users (db w))
                (posts (db w)
                 ++ [models.mkPost (uuid4 env) (column_value v) (schemas.text post)]))
             (TTLCache_clear (cache w))).
Proof.
  intros Huid [user Huser] Hfresh.
  unfold add_post, with_db, Post_add_post, PostRepository_create, write_cache,
    try_except_Exception, bind, lift_result, ret.
  rewrite Huid, Hfresh, Huser.
  rewrite bool_decide_eq_false_2 by (by intros [? ?]).
  by rewrite bool_decide_eq_false_2 by done.
Qed.

(** Otherwise [add_post] changes nothing. *)
Lemma add_post_effect env post token r w w' :
  add_post env post token w = (r, w') ->
  w' = w \/
  exists v,
    JWT_get_user_id env token = Return (Some v) /\
    is_Some (UserRepository_get_by_id (column_value v) (db w)) /\
    PostRepository_get_by_id (uuid4 env) (db w) = None /\
    r = Return (schemas.mkCreatePostResponse (uuid4 env)) /\
    w' = mkWorld (mkSession (users (db w))
                    (posts (db w)
                     ++ [models.mkPost (uuid4 env) (column_value v) (schemas.text post)]))
                 (TTLCache_clear (cache w)).
Proof.
  destruct (JWT_get_user_id env token) as [[v|]|e] eqn:Huid;
    [| |rewrite (add_post_token_raises _ _ _ _ _ Huid); intros [= _ <-]; by left].
  - destruct (UserRepository_get_by_id (column_value v) (db w)) as [user|] eqn:Huser.
    + destruct (PostRepository_get_by_id (uuid4 env) (db w)) as [p|] eqn:Hfresh.
      * unfold add_post, with_db, Post_add_post, PostRepository_create, write_cache,
          internal_server_error, try_except_Exception, bind, lift_result, ret, raise.
        rewrite Huid, Hfresh. rewrite bool_decide_eq_true_2 by (by eexists).
        intros [= _ <-]. left. by destruct w.
      * rewrite (add_post_stores env post token w v Huid) by (by rewrite ?Huser).
        intros [= <- <-]. right. exists v. by rewrite Huser.
    + unfold add_post, with_db, Post_add_post, PostRepository_create, write_cache,
        internal_server_error, try_except_Exception, bind, lift_result, ret, raise.
      rewrite Huid, Huser.
      destruct (bool_decide (is_Some _)); [|rewrite bool_decide_eq_true_2 by done];
        intros [= _ <-]; left; by destruct w.
  - unfold add_post, with_db, Post_add_post, PostRepository_create, write_cache,
      internal_server_error, try_except_Exception, bind, lift_result, ret, raise.
    rewrite Huid. intros [= _ <-]. left. by destruct w.
Qed.

(** [delete_post] removes the rows with the given id and clears the cache,
    or changes nothing. *)
Lemma delete_post_effect post token r w w' :
  delete_post post token w = (r, w') ->
  match PostRepository_get_by_id (schemas.id post) (db w) with
  | None => w' = w
  | Some _ =>
      r = Return (schemas.mkDeletePostResponse ("post " +:+ schemas.id post +:+ " was deleted."))
      /\ w' = mkWorld
                (mkSession (users (db w))
                   (List.filter
                      (fun p => negb (bool_decide (models.post_id p = schemas.id post)))
                      (posts (db w))))
                (TTLCache_clear (cache w))
  end.
Proof.
  unfold delete_post, with_db, Post_delete_post, PostRepository_delete, write_cache,
    internal_server_error, try_except_Exception, bind, lift_result, ret, raise.
  destruct (PostRepository_get_by_id _ _) as [p|] eqn:Hget.
  - rewrite (PostRepository_get_by_id_post_id _ _ _ Hget). by intros [= <- <-].
  - intros [= _ <-]. by destruct w.
Qed.

(** ** The listing handler and the cache *)

Lemma TTLCache_find_Some key c value expires :
  TTLCache_find key c = Some (value, expires) -> (key, (value, expires)) ∈ links c.
Proof.
  unfold TTLCache_find.
  destruct (List.find _ _) as [[k ve]|] eqn:Hfind; [|discriminate].
  intros [= ->]. apply List.find_some in Hfind as [Hin Hkey].
  apply bool_decide_eq_true_1 in Hkey. simpl in Hkey. subst k.
  by apply list_elem_of_In.
Qed.

(** A hit: the cached listing is returned and becomes the most recently
    used; storage is not read. *)
Lemma get_list_of_posts_hit env token w user_id value expires :
  JWT_get_user_id env token = Return user_id ->
  TTLCache_find user_id (cache w) = Some (value, expires) ->
  monotonic env < expires ->
  get_list_of_posts env token w
  = (Return value,
     mkWorld (db w)
       (mkTTLCache (maxsize (cache w)) (ttl (cache w))
          (TTLCache_others user_id (cache w) ++ [(user_id, (value, expires))]))).
Proof.
  intros Huid Hfind Hlive.
  unfold get_list_of_posts, with_cache, read_cache, TTLCache_contains, TTLCache_getitem,
    try_except_Exception, bind, lift_result, ret.
  rewrite Huid. cbv beta zeta. rewrite Hfind, (proj2 (Z.ltb_lt _ _) Hlive).
  cbv beta iota. by rewrite Hfind, (proj2 (Z.ltb_lt _ _) Hlive).
Qed.

(** A miss: the listing is read from storage, cached and returned. *)
Lemma get_list_of_posts_miss env token w user_id :
  JWT_get_user_id env token = Return user_id ->
  TTLCache_contains (monotonic env) user_id (cache w) = false ->
  let response := schemas.mkGetListOfPostsResponse (Post_get_list_of_posts user_id (db w)) in
  get_list_of_posts env token w
  = (Return response,
     mkWorld (db w) (TTLCache_setitem (monotonic env) user_id response (cache w))).
Proof.
  intros Huid Hmiss response.
  unfold get_list_of_posts, read_cache, read_db, write_cache,
    try_except_Exception, bind, lift_result, ret.
  by rewrite Huid, Hmiss.
Qed.

Lemma TTLCache_contains_true time key c :
  TTLCache_contains time key c = true ->
  exists value expires, TTLCache_find key c = Some (value, expires) /\ time < expires.
Proof.
  unfold TTLCache_contains. destruct (TTLCache_find key c) as [[value expires]|]; [|done].
  intros Hlive%Z.ltb_lt. by exists value, expires.
Qed.

(** ** Invariants of the cache *)

Lemma filter_length_le_find {A} (f : A -> bool) (l : list A) :
  (length (List.filter (fun x => negb (f x)) l) <= length l)%nat /\
  (forall x, List.find f l = Some x ->
     (length (List.filter (fun x => negb (f x)) l) < length l)%nat).
Proof.
  clear. induction l as [|y l [IHle IHlt]]; simpl; [split; [lia|discriminate]|].
  destruct (f y) eqn:Hy; simpl; split; try lia.
  intros x Hx. specialize (IHlt x Hx). lia.
Qed.

Lemma Forall_List_filter {A} (P : A -> Prop) (f : A -> bool) (l : list A) :
  Forall P l -> Forall P (List.filter f l).
Proof.
  induction 1 as [|y l Hy Hl IH]; simpl; [constructor|].
  destruct (f y); [by constructor|exact IH].
Qed.

Lemma TTLCache_find_others_lt key c entry :
  TTLCache_find key c = Some entry ->
  (length (TTLCache_others key c) < length (links c))%nat.
Proof.
  unfold TTLCache_find, TTLCache_others.
  destruct (List.find _ _) as [x|] eqn:Hfind; [|discriminate]. intros _.
  exact (proj2 (filter_length_le_find (fun l => bool_decide (l.1 = key)) (links c)) x Hfind).
Qed.

Lemma TTLCache_expire_length time c :
  (length (links (TTLCache_expire time c)) <= length (links c))%nat.
Proof.
  clear. unfold TTLCache_expire; cbn [links].
  induction (links c) as [|y l IH]; simpl; [lia|]. destruct (time <? _); simpl; lia.
Qed.

(** Writing an entry keeps the cache within its limit. *)
Lemma TTLCache_setitem_within_limit time key value c :
  cache_within_limit c -> cache_within_limit (TTLCache_setitem time key value c).
Proof.
  intros (Hmax & Httl & Hlen). unfold cache_within_limit, TTLCache_setitem.
  cbn [maxsize ttl links]. change (maxsize (TTLCache_expire time c)) with (maxsize c).
  change (ttl (TTLCache_expire time c)) with (ttl c).
  do 2 (split; [done|]). rewrite length_app. cbn [length].
  pose proof (TTLCache_expire_length time c) as Hexp.
  destruct (TTLCache_find key (TTLCache_expire time c)) as [entry|] eqn:Hfind.
  - apply TTLCache_find_others_lt in Hfind. clear -Hfind Hexp Hlen. lia.
  - rewrite length_drop, Hmax. unfold config.CACHE_ITEM_LIMIT in *.
    clear -Hlen. lia.
Qed.

Lemma handled_within_limit w w' :
  handled w w' -> cache_within_limit (cache w) -> cache_within_limit (cache w').
Proof.
  intros [env request r w0 w0' Hrun | env request r w0 w0' Hrun
         | env post token r w0 w0' Hrun | env token r w0 w0' Hrun
         | post token r w0 w0' Hrun] Hinv.
  - apply sign_up_effect in Hrun as (-> & _). exact Hinv.
  - by apply login_effect in Hrun as ->.
  - apply add_post_effect in Hrun as [->|(v & _ & _ & _ & _ & ->)]; [done|].
    destruct Hinv as (Hmax & Httl & _). repeat split; cbn; [done..|].
    unfold config.CACHE_ITEM_LIMIT. clear. lia.
  - destruct (JWT_get_user_id env token) as [uid|err] eqn:Huid;
      [|rewrite (get_list_of_posts_token_raises _ _ _ _ Huid) in Hrun;
        by injection Hrun as _ <-].
    destruct (TTLCache_contains (monotonic env) uid (cache w0)) eqn:Hhit.
    + apply TTLCache_contains_true in Hhit as (value & expires & Hfind & Hlive).
      rewrite (get_list_of_posts_hit _ _ _ _ _ _ Huid Hfind Hlive) in Hrun.
      injection Hrun as _ <-. cbn [cache].
      destruct Hinv as (Hmax & Httl & Hlen). repeat split; cbn [maxsize ttl links]; [done..|].
      apply TTLCache_find_others_lt in Hfind. rewrite length_app. cbn [length].
      clear -Hfind Hlen. lia.
    + rewrite (get_list_of_posts_miss _ _ _ _ Huid Hhit) in Hrun.
      injection Hrun as _ <-. by apply TTLCache_setitem_within_limit.
  - apply delete_post_effect in Hrun.
    destruct (PostRepository_get_by_id _ _); [destruct Hrun as [_ ->]|by subst].
    destruct Hinv as (Hmax & Httl & _). repeat split; cbn; [done..|].
    unfold config.CACHE_ITEM_LIMIT. clear. lia.
Qed.

(** However many requests are handled, the cache stays the one the module
    configures and never holds more than [CACHE_ITEM_LIMIT] entries. *)
Theorem cache_never_exceeds_limit w w' :
  cache_within_limit (cache w) ->
  rtc handled w w' ->
  maxsize (cache w') = config.CACHE_ITEM_LIMIT /\
  ttl (cache w') = config.CACHE_TIME_TO_LIVE /\
  Z.of_nat (length (links (cache w'))) <= config.CACHE_ITEM_LIMIT.
Proof.
  intros Hinv Hsteps. induction Hsteps as [w|w w1 w2 Hstep _ IH]; [exact Hinv|].
  apply IH. by apply (handled_within_limit w).
Qed.

(** ** The cache and storage agree *)

Lemma Post_get_list_of_posts_posts user_id db1 db2 :
  posts db1 = posts db2 ->
  Post_get_list_of_posts user_id db1 = Post_get_list_of_posts user_id db2.
Proof.
  intros Hposts. unfold Post_get_list_of_posts, PostRepository_get_list_by_user.
  by rewrite Hposts.
Qed.

Lemma cache_coherent_same_posts w w' :
  posts (db w') = posts (db w) -> cache w' = cache w ->
  cache_coherent w -> cache_coherent w'.
Proof.
  unfold cache_coherent. intros Hposts -> Hinv.
  eapply Forall_impl; [exact Hinv|]. intros l ->.
  f_equal. by apply Post_get_list_of_posts_posts.
Qed.

Lemma handled_coherent w w' :
  handled w w' -> cache_coherent w -> cache_coherent w'.
Proof.
  intros [env request r w0 w0' Hrun | env request r w0 w0' Hrun
         | env post token r w0 w0' Hrun | env token r w0 w0' Hrun
         | post token r w0 w0' Hrun] Hinv.
  - apply sign_up_effect in Hrun as (Hcache & Hposts & _).
    by apply (cache_coherent_same_posts w0).
  - by apply login_effect in Hrun as ->.
  - apply add_post_effect in Hrun as [->|(v & _ & _ & _ & _ & ->)]; [done|].
    by apply Forall_nil.
  - destruct (JWT_get_user_id env token) as [uid|err] eqn:Huid;
      [|rewrite (get_list_of_posts_token_raises _ _ _ _ Huid) in Hrun;
        by injection Hrun as _ <-].
    unfold cache_coherent in *.
    destruct (TTLCache_contains (monotonic env) uid (cache w0)) eqn:Hhit.
    + apply TTLCache_contains_true in Hhit as (value & expires & Hfind & Hlive).
      rewrite (get_list_of_posts_hit _ _ _ _ _ _ Huid Hfind Hlive) in Hrun.
      injection Hrun as _ <-. cbn [cache db links].
      apply Forall_app. split; [by apply Forall_List_filter|].
      apply Forall_singleton.
      apply TTLCache_find_Some in Hfind.
      by apply (proj1 (Forall_forall _ _) Hinv) in Hfind.
    + rewrite (get_list_of_posts_miss _ _ _ _ Huid Hhit) in Hrun.
      injection Hrun as _ <-. cbn [cache db]. unfold TTLCache_setitem. cbn [links].
      apply Forall_app. split; [|by apply Forall_singleton].
      assert (Hothers : Forall
                (fun l => l.2.1 = schemas.mkGetListOfPostsResponse
                                    (Post_get_list_of_posts l.1 (db w0)))
                (TTLCache_others uid (TTLCache_expire (monotonic env) (cache w0))))
        by (by do 2 apply Forall_List_filter).
      destruct (TTLCache_find _ _); [exact Hothers|by apply Forall_drop].
  - apply delete_post_effect in Hrun.
    destruct (PostRepository_get_by_id _ _); [destruct Hrun as [_ ->]|by subst].
    by apply Forall_nil.
Qed.

Lemma handled_many_coherent w w' :
  cache_coherent w -> rtc handled w w' -> cache_coherent w'.
Proof.
  intros Hinv Hsteps. induction Hsteps as [w|w w1 w2 Hstep _ IH]; [exact Hinv|].
  apply IH. by apply (handled_coherent w).
Qed.

Lemma elem_of_Post_get_list_of_posts v db r :
  r ∈ Post_get_list_of_posts (Some v) db <->
  exists p, p ∈ posts db /\ models.post_user_id p = column_value v /\
            r = schemas.mkPostResponse (models.post_id p) (models.text p).
Proof.
  unfold Post_get_list_of_posts, PostRepository_get_list_by_user.
  rewrite list_elem_of_In, List.in_map_iff. split.
  - intros (p & <- & [Hin Howner%bool_decide_eq_true_1]%List.filter_In).
    exists p. by rewrite list_elem_of_In.
  - intros (p & Hin%list_elem_of_In & Howner & ->). exists p. split; [done|].
    apply List.filter_In. split; [done|by apply bool_decide_eq_true_2].
Qed.

(** In whatever state the service has reached from one whose cache agrees
    with storage (an empty cache does), the listing handler returns exactly
    the posts storage holds for the user the token names -- each as its id and
    text, none of another user, none for a token without a subject -- and
    leaves storage as it is: the cache is never stale. *)
Theorem get_list_of_posts_never_stale w0 w env token user_id :
  cache_coherent w0 ->
  rtc handled w0 w ->
  JWT_get_user_id env token = Return user_id ->
  exists response w',
    get_list_of_posts env token w = (Return response, w') /\
    db w' = db w /\
    match user_id with
    | None => schemas.list_of_posts response = []
    | Some v =>
        forall r,
          r ∈ schemas.list_of_posts response <->
          exists p, p ∈ posts (db w) /\ models.post_user_id p = column_value v /\
                    r = schemas.mkPostResponse (models.post_id p) (models.text p)
    end.
Proof.
  intros Hinv0 Hsteps Huid.
  pose proof (handled_many_coherent _ _ Hinv0 Hsteps) as Hinv.
  assert (Hlisting : match user_id with
            | None => Post_get_list_of_posts user_id (db w) = []
            | Some v =>
                forall r,
                  r ∈ Post_get_list_of_posts user_id (db w) <->
                  exists p, p ∈ posts (db w) /\ models.post_user_id p = column_value v /\
                            r = schemas.mkPostResponse (models.post_id p) (models.text p)
            end).
  { destruct user_id as [v|]; [|reflexivity]. intros r.
    apply elem_of_Post_get_list_of_posts. }
  destruct (TTLCache_contains (monotonic env) user_id (cache w)) eqn:Hhit.
  - apply TTLCache_contains_true in Hhit as (value & expires & Hfind & Hlive).
    rewrite (get_list_of_posts_hit _ _ _ _ _ _ Huid Hfind Hlive).
    eexists _, _. split; [reflexivity|]. split; [reflexivity|].
    apply TTLCache_find_Some in Hfind.
    apply (proj1 (Forall_forall _ _) Hinv) in Hfind. cbn in Hfind. by rewrite Hfind.
  - rewrite (get_list_of_posts_miss _ _ _ _ Huid Hhit).
    eexists _, _. split; [reflexivity|]. by split.
Qed.

(** ** What storage keeps *)

Lemma NoDup_fmap_snoc {A} (g : A -> string) (l : list A) (x : A) :
  NoDup (g <$> l) ->
  List.find (fun y => bool_decide (g y = g x)) l = None ->
  NoDup (g <$> (l ++ [x])%list).
Proof.
  intros Hl Hfree. rewrite fmap_app. apply NoDup_app. split; [done|]. split.
  - intros k Hk. cbn. rewrite list_elem_of_singleton. intros ->.
    by apply (find_None_fmap g (g x) l).
  - apply NoDup_singleton.
Qed.

Lemma NoDup_fmap_List_filter {A} (g : A -> string) (f : A -> bool) (l : list A) :
  NoDup (g <$> l) -> NoDup (g <$> List.filter f l).
Proof.
  induction l as [|y l IH]; simpl; [done|].
  rewrite NoDup_cons. intros [Hy Hl].
  destruct (f y); [|by apply IH]. cbn. rewrite NoDup_cons. split; [|by apply IH].
  intros (z & Hz & Hin)%list_elem_of_fmap. apply Hy. apply list_elem_of_fmap.
  exists z. split; [done|].
  apply list_elem_of_In. apply list_elem_of_In in Hin.
  by apply List.filter_In in Hin as [Hin _].
Qed.

Lemma db_consistent_more_users db hashed id email :
  db_consistent db ->
  UserRepository_get_by_id id db = None ->
  UserRepository_get_by_email email db = None ->
  db_consistent (mkSession (users db ++ [models.mkUser id email hashed])%list (posts db)).
Proof.
  intros (Hids & Hemails & Hposts & Howners) Hid Hemail.
  unfold db_consistent; cbn [users posts].
  split; [by apply NoDup_fmap_snoc|]. split; [by apply NoDup_fmap_snoc|].
  split; [done|]. intros p Hp. destruct (Howners p Hp) as [user Huser].
  exists user. by apply find_app_Some.
Qed.

Lemma db_consistent_more_posts db id owner text :
  db_consistent db ->
  PostRepository_get_by_id id db = None ->
  is_Some (UserRepository_get_by_id owner db) ->
  db_consistent (mkSession (users db) (posts db ++ [models.mkPost id owner text])%list).
Proof.
  intros (Hids & Hemails & Hposts & Howners) Hid Howner.
  unfold db_consistent; cbn [users posts].
  do 2 (split; [done|]). split; [by apply NoDup_fmap_snoc|].
  intros p [Hp|Hp%list_elem_of_singleton]%elem_of_app; [by apply Howners|by subst].
Qed.

Lemma db_consistent_fewer_posts db f :
  db_consistent db -> db_consistent (mkSession (users db) (List.filter f (posts db))).
Proof.
  intros (Hids & Hemails & Hposts & Howners).
  unfold db_consistent; cbn [users posts].
  do 2 (split; [done|]). split; [by apply NoDup_fmap_List_filter|].
  intros p Hp%list_elem_of_In%List.filter_In. apply Howners.
  apply list_elem_of_In. tauto.
Qed.

Lemma handled_db_consistent w w' :
  handled w w' -> db_consistent (db w) -> db_consistent (db w').
Proof.
  intros [env request r w0 w0' Hrun | env request r w0 w0' Hrun
         | env post token r w0 w0' Hrun | env token r w0 w0' Hrun
         | post token r w0 w0' Hrun] Hinv.
  - apply sign_up_effect in Hrun as (_ & Hposts & [[Husers _]|(hashed & Husers & Hid & Hemail & _)]).
    + destruct (db w0) as [us ps], (db w0') as [us' ps']. cbn in *. by subst.
    + pose proof (db_consistent_more_users _ hashed _ _ Hinv Hid Hemail) as Hmore.
      destruct (db w0) as [us ps], (db w0') as [us' ps']. cbn in *. by subst.
  - by apply login_effect in Hrun as ->.
  - apply add_post_effect in Hrun as [->|(v & _ & Howner & Hid & _ & ->)]; [done|].
    cbn [db]. by apply db_consistent_more_posts.
  - destruct (JWT_get_user_id env token) as [uid|err] eqn:Huid;
      [|rewrite (get_list_of_posts_token_raises _ _ _ _ Huid) in Hrun;
        by injection Hrun as _ <-].
    destruct (TTLCache_contains (monotonic env) uid (cache w0)) eqn:Hhit.
    + apply TTLCache_contains_true in Hhit as (value & expires & Hfind & Hlive).
      rewrite (get_list_of_posts_hit _ _ _ _ _ _ Huid Hfind Hlive) in Hrun.
      by injection Hrun as _ <-.
    + rewrite (get_list_of_posts_miss _ _ _ _ Huid Hhit) in Hrun.
      by injection Hrun as _ <-.
  - apply delete_post_effect in Hrun.
    destruct (PostRepository_get_by_id _ _); [destruct Hrun as [_ ->]|by subst].
    cbn [db]. by apply db_consistent_fewer_posts.
Qed.

(** However many requests are handled, storage keeps what the models declare:
    user ids, emails and post ids stay unique, and every post is owned by a
    stored user. *)
Theorem storage_stays_consistent w w' :
  db_consistent (db w) ->
  rtc handled w w' ->
  NoDup (models.user_id <$> users (db w')) /\
  NoDup (models.email <$> users (db w')) /\
  NoDup (models.post_id <$> posts (db w')) /\
  (forall p, p ∈ posts (db w') ->
     is_Some (UserRepository_get_by_id (models.post_user_id p) (db w'))).
Proof.
  intros Hinv Hsteps. induction Hsteps as [w|w w1 w2 Hstep _ IH]; [exact Hinv|].
  apply IH. by apply (handled_db_consistent w).
Qed.

(** ** The gates in front of the handlers *)

Lemma validate_token_Return env authorization t :
  validate_token env authorization = Return t ->
  authorization = Some t /\ JWT_validate_token env t = Return true.
Proof.
  unfold validate_token, security. destruct authorization as [c|]; [|discriminate].
  destruct (JWT_validate_token env c) as [[]|e] eqn:Hvalid; [|discriminate..].
  by intros [= <-].
Qed.

(** A request [HTTPBearer] refuses is answered with the exception of that
    class, one whose token does not validate with 401, and one on whose token
    [JWT.validate_token] raises with what it raised -- the dependency fails in
    no other way.  In each case none of the three guarded routes looks at the
    size of the body or reaches its handler, and nothing is stored, deleted,
    cached or cleared. *)
Theorem routes_refuse_unauthenticated env authorization body_length post target w e :
  validate_token env authorization = Raise e ->
  (authorization = None /\ e = bearer_refusal env \/
   exists t, authorization = Some t /\
     (JWT_validate_token env t = Return false /\
      e = HTTPException status.HTTP_401_UNAUTHORIZED "Invalid or expired token" \/
      JWT_validate_token env t = Raise e)) /\
  route_add_post env authorization body_length post w = (Raise e, w) /\
  route_get_list_of_posts env authorization w = (Raise e, w) /\
  route_delete_post env authorization target w = (Raise e, w).
Proof.
  intros Hgate. split.
  - revert Hgate. unfold validate_token, security.
    destruct authorization as [t|]; [|intros [= <-]; by left].
    intros Hgate. right. exists t. split; [done|].
    destruct (JWT_validate_token env t) as [[]|e0]; [discriminate| |].
    + left. by injection Hgate as <-.
    + right. by injection Hgate as <-.
  - unfold route_add_post, route_get_list_of_posts, route_delete_post.
    by rewrite !(bind_Raise _ _ w e w) by (by unfold lift_result; rewrite Hgate).
Qed.

(** Behind a valid token, [/add_post] takes a body of up to
    [PAYLOAD_MAX_SIZE] bytes, that many included; a longer one is answered 413
    before the handler runs, and nothing changes. *)
Theorem route_add_post_payload_limit env authorization body_length post w t :
  validate_token env authorization = Return t ->
  route_add_post env authorization body_length post w
  = if body_length <=? config.PAYLOAD_MAX_SIZE
    then add_post env post t w
    else (Raise (HTTPException status.HTTP_413_REQUEST_ENTITY_TOO_LARGE
                   "Request is too large"), w).
Proof.
  intros Hgate. unfold route_add_post.
  rewrite (bind_Return _ _ w t w) by (by unfold lift_result; rewrite Hgate).
  unfold validate_payload_size, bind, lift_result.
  rewrite Z.leb_antisym. by destruct (config.PAYLOAD_MAX_SIZE <? body_length).
Qed.

(** ** Subjects *)

(** The subject [JWT.get_user_id] returns is a string. *)
Lemma JWT_get_user_id_string env t v :
  JWT_get_user_id env t = Return (Some v) -> exists s, v = JString s.
Proof.
  unfold JWT_get_user_id. rewrite JWT__decode_token_spec.
  destruct t as [raw|j]; [discriminate|].
  destruct (signature_valid (Compact j)); [|discriminate].
  destruct (validate_claims _ _) as [e|] eqn:Hclaims; [by destruct (is_PyJWTError e)|].
  apply validate_claims_None in Hclaims as (_ & _ & _ & _ & Hsub & _).
  destruct (negb _ && _); [|discriminate]. intros [= Hv].
  revert Hsub. unfold check_sub. rewrite Hv. destruct v; try discriminate. by eexists.
Qed.

(** [JWT.get_user_id] follows [JWT.validate_token]: for a token that is
    accepted it returns the [sub] claim, which is a string if there is one;
    for a token that is refused it returns [None]; and where validation
    raises, it raises the same. *)
Theorem JWT_get_user_id_iff_valid env t :
  match JWT_validate_token env t with
  | Return true =>
      exists j, t = Compact j /\
        JWT_get_user_id env t = Return (payload j !! "sub") /\
        (payload j !! "sub" = None \/ exists s, payload j !! "sub" = Some (JString s))
  | Return false => JWT_get_user_id env t = Return None
  | Raise e => JWT_get_user_id env t = Raise e
  end.
Proof.
  rewrite JWT_validate_token_spec. unfold JWT_get_user_id.
  rewrite JWT__decode_token_spec.
  destruct t as [raw|j]; [reflexivity|].
  destruct (signature_valid (Compact j)); [|reflexivity].
  destruct (validate_claims _ _) as [e|] eqn:Hclaims; [by destruct (is_PyJWTError e)|].
  apply validate_claims_None in Hclaims as (_ & _ & _ & _ & Hsub & _).
  exists j. split; [reflexivity|]. split.
  - destruct (decide (payload j = ∅)) as [Hempty|Hne].
    + rewrite Hempty, lookup_empty. by rewrite bool_decide_eq_true_2.
    + rewrite (bool_decide_eq_false_2 _ Hne). cbn [negb andb].
      destruct (payload j !! "sub") as [v|].
      * by rewrite bool_decide_eq_true_2 by (by eexists).
      * by rewrite bool_decide_eq_false_2 by (by intros [? ?]).
  - revert Hsub. unfold check_sub.
    destruct (payload j !! "sub") as [[]|]; try discriminate; [right; by eexists|by left].
Qed.

(** ** Encoding and decoding claims *)




(** ** Writing posts *)


Lemma find_filter_other {A} (f g : A -> bool) (l : list A) :
  (forall x, f x = true -> g x = true) ->
  List.find f (List.filter g l) = List.find f l.
Proof.
  intros Hfg. induction l as [|y l IH]; simpl; [reflexivity|].
  destruct (f y) eqn:Hf.
  - rewrite (Hfg y Hf). simpl. by rewrite Hf.
  - destruct (g y); simpl; [by rewrite Hf|exact IH].
Qed.


(** A post that exists is deleted for whoever asks: the handler returns;
    afterwards the id gives nothing, every other id gives what it gave before,
    the users are untouched, and the posts left are those that were there
    under another id. *)
Theorem delete_post_removes_one_post post token w p :
  PostRepository_get_by_id (schemas.id post) (db w) = Some p ->
  exists w',
    delete_post post token w
    = (Return (schemas.mkDeletePostResponse ("post " +:+ schemas.id post +:+ " was deleted.")),
       w') /\
    users (db w') = users (db w) /\
    Post_get_post (schemas.id post) (db w') = None /\
    (forall other, other <> schemas.id post ->
       Post_get_post other (db w') = Post_get_post other (db w)) /\
    (forall q, q ∈ posts (db w') <-> q ∈ posts (db w) /\ models.post_id q <> schemas.id post).
Proof.
  intros Hfound.
  destruct (delete_post post token w) as [r w'] eqn:Hrun. exists w'.
  apply delete_post_effect in Hrun. rewrite Hfound in Hrun. destruct Hrun as [-> ->].
  split; [done|]. cbn [db users posts]. split; [done|].
  unfold Post_get_post, PostRepository_get_by_id. cbn [posts]. split; [|split].
  - apply (find_filter_negb (fun q => bool_decide (models.post_id q = schemas.id post))).
  - intros other Hother. apply find_filter_other.
    intros q Hq%bool_decide_eq_true_1. apply negb_true_iff, bool_decide_eq_false_2.
    congruence.
  - intros q. rewrite !list_elem_of_In, List.filter_In, negb_true_iff.
    by rewrite bool_decide_eq_false.
Qed.

(** ** Registering, then logging in and posting *)

Lemma sign_up_Return env request response w w' :
  sign_up env request w = (Return response, w') ->
  exists hashed,
    pwd_context_hash (gensalt env) (schemas.password request) = Return hashed /\
    response = schemas.mkSignUpResponse (issued_token env (uuid4 env)) /\
    UserRepository_get_by_email (schemas.email request) (db w')
    = Some (models.mkUser (uuid4 env) (schemas.email request) hashed) /\
    UserRepository_get_by_id (uuid4 env) (db w')
    = Some (models.mkUser (uuid4 env) (schemas.email request) hashed) /\
    posts (db w') = posts (db w).
Proof.
  intros Hrun.
  apply sign_up_effect in Hrun
    as (_ & Hposts & [[_ [=]]|(hashed & Husers & Hid & Hemail & Hhash & [= ->])]).
  exists hashed. do 2 (split; [done|]).
  unfold UserRepository_get_by_email, UserRepository_get_by_id in *. rewrite Husers.
  split; [|split; [|done]]; by apply find_app_None; [|apply bool_decide_eq_true_2].
Qed.

(** After a registration that returned, the same email and password verify,
    and logging in with them returns a token for the id the registration's
    token names, leaving the state as it is; a password whose first 72 bytes
    have another bcrypt checksum under the stored salt does not verify. *)
Theorem sign_up_then_login env1 env2 request response w w' :
  String.length (gensalt env1) = 22%nat ->
  sign_up env1 request w = (Return response, w') ->
  response = schemas.mkSignUpResponse (issued_token env1 (uuid4 env1)) /\
  User_verify_credentials (schemas.email request) (schemas.password request) (db w')
  = Return true /\
  login env2 (schemas.mkLoginRequest (schemas.email request) (schemas.password request)) w'
  = (Return (schemas.mkLoginResponse (issued_token env2 (uuid4 env1))), w') /\
  (forall other key,
     bcrypt_norm_secret other = Return key ->
     bcrypt_digest (gensalt env1) (string_take 72 (schemas.password request))
     <> bcrypt_digest (gensalt env1) (string_take 72 other) ->
     User_verify_credentials (schemas.email request) other (db w') = Return false).
Proof.
  intros Hsalt Hrun.
  apply sign_up_Return in Hrun as (hashed & Hhash & -> & Hemail & _ & _).
  assert (Hkey : exists key, bcrypt_norm_secret (schemas.password request) = Return key).
  { unfold pwd_context_hash in Hhash.
    destruct (bcrypt_norm_secret _); [by eexists|discriminate]. }
  destruct Hkey as [key Hkey].
  assert (Hverify : User_verify_credentials (schemas.email request)
                      (schemas.password request) (db w') = Return true).
  { unfold User_verify_credentials, User_get_by_email. rewrite Hemail. cbn [models.password].
    rewrite (pwd_context_verify_hash _ _ _ _ _ Hsalt Hhash Hkey).
    by rewrite bool_decide_eq_true_2. }
  split; [done|]. split; [exact Hverify|]. split.
  - unfold login, try_except_Exception.
    cbn [schemas.login_email schemas.login_password].
    rewrite (bind_Return _ _ w' true w') by (by unfold read_db_result; rewrite Hverify).
    cbn [negb].
    rewrite (bind_Return _ _ w' (Some (models.mkUser (uuid4 env1) (schemas.email request)
                                         hashed)) w')
      by (by unfold read_db, User_get_by_email; cbn; rewrite Hemail).
    unfold bind, lift_result, ret. cbn [models.user_id].
    by rewrite JWT_create_token_sub.
  - intros other okey Hother Hdiffer.
    unfold User_verify_credentials, User_get_by_email. rewrite Hemail. cbn [models.password].
    rewrite (pwd_context_verify_hash _ _ _ _ _ Hsalt Hhash Hother).
    by rewrite bool_decide_eq_false_2.
Qed.


(** ** How long a listing is served from the cache *)

Lemma find_drop_None {A} (f : A -> bool) (n : nat) (l : list A) :
  List.find f l = None -> List.find f (drop n l) = None.
Proof.
  revert n. induction l as [|y l IH]; intros [|n]; simpl; try done.
  destruct (f y); [discriminate|]. apply IH.
Qed.

(** Right after [cache[key] = value] at [time], the entry is found, due to
    expire [ttl] later. *)
Lemma TTLCache_find_setitem time key value c :
  TTLCache_find key (TTLCache_setitem time key value c) = Some (value, time + ttl c).
Proof.
  unfold TTLCache_find at 1, TTLCache_setitem. cbn [links].
  set (f := fun l : option json * (schemas.GetListOfPostsResponse * Z) =>
              bool_decide (l.1 = key)).
  assert (Hothers : List.find f (TTLCache_others key (TTLCache_expire time c)) = None)
    by apply (find_filter_negb f).
  erewrite find_app_None; [reflexivity| |by apply bool_decide_eq_true_2].
  destruct (TTLCache_find _ _); [exact Hothers|by apply find_drop_None].
Qed.

(** A listing read from storage on a miss is what the handler answers, for
    the same user, while the timer is less than [CACHE_TIME_TO_LIVE] past that
    call -- whatever storage holds by then; from then on it answers from
    storage again. *)
Theorem get_list_of_posts_served_from_cache env1 env2 token1 token2 w user_id db2 :
  ttl (cache w) = config.CACHE_TIME_TO_LIVE ->
  JWT_get_user_id env1 token1 = Return user_id ->
  JWT_get_user_id env2 token2 = Return user_id ->
  TTLCache_contains (monotonic env1) user_id (cache w) = false ->
  (get_list_of_posts env2 token2
     (mkWorld db2 (cache (get_list_of_posts env1 token1 w).2))).1
  = Return (schemas.mkGetListOfPostsResponse
              (Post_get_list_of_posts user_id
                 (if monotonic env2 <? monotonic env1 + config.CACHE_TIME_TO_LIVE
                  then db w else db2))).
Proof.
  intros Httl Huid1 Huid2 Hmiss.
  rewrite (get_list_of_posts_miss _ _ _ _ Huid1 Hmiss). cbn [snd cache].
  set (response := schemas.mkGetListOfPostsResponse (Post_get_list_of_posts user_id (db w))).
  pose proof (TTLCache_find_setitem (monotonic env1) user_id response (cache w)) as Hfind.
  rewrite Httl in Hfind.
  destruct (Z.ltb_spec (monotonic env2) (monotonic env1 + config.CACHE_TIME_TO_LIVE))
    as [Hlive|Hdead].
  - by rewrite (get_list_of_posts_hit env2 token2 (mkWorld db2 _) _ _ _ Huid2 Hfind Hlive).
  - rewrite (get_list_of_posts_miss env2 token2 (mkWorld db2 _) _ Huid2); [done|].
    unfold TTLCache_contains. cbn [cache]. rewrite Hfind. by apply Z.ltb_ge.
Qed.

(** ** Requests that fail *)

Lemma try_except_Raise_inv {A} (body : M World A) w e w' :
  try_except_Exception body internal_server_error w = (Raise e, w') ->
  e = HTTPException status.HTTP_500_INTERNAL_SERVER_ERROR "Internal server error occurred".
Proof.
  unfold try_except_Exception, internal_server_error, raise.
  destruct (body w) as [[a|e0] w0]; [discriminate|]. by intros [= <- _].
Qed.

Lemma sign_up_Raise env request e w w' :
  sign_up env request w = (Raise e, w') -> w' = w.
Proof.
  intros Hrun.
  apply sign_up_effect in Hrun as (Hcache & Hposts & [[Husers _]|(hashed & _ & _ & _ & _ & [=])]).
  destruct w as [[us ps] c], w' as [[us' ps'] c']. cbn in *. by subst.
Qed.

(** No handler ever answers 400, 401 or 404: whatever goes wrong in one of the
    five, the answer is the 500, and storage and cache are as they were before
    the request. *)
Theorem failed_request_is_500 w e w' :
  failed w e w' ->
  e = HTTPException status.HTTP_500_INTERNAL_SERVER_ERROR "Internal server error occurred" /\
  w' = w.
Proof.
  intros [env request e0 w0 w0' Hrun | env request e0 w0 w0' Hrun
         | env post token e0 w0 w0' Hrun | env token e0 w0 w0' Hrun
         | post token e0 w0 w0' Hrun];
    (split; [exact (try_except_Raise_inv _ _ _ _ Hrun)|]).
  - by eapply sign_up_Raise.
  - by eapply login_effect.
  - by apply add_post_effect in Hrun as [->|(v & _ & _ & _ & [=] & _)].
  - destruct (JWT_get_user_id env token) as [uid|err] eqn:Huid;
      [|rewrite (get_list_of_posts_token_raises _ _ _ _ Huid) in Hrun;
        by injection Hrun as _ <-].
    destruct (TTLCache_contains (monotonic env) uid (cache w0)) eqn:Hhit.
    + apply TTLCache_contains_true in Hhit as (value & expires & Hfind & Hlive).
      by rewrite (get_list_of_posts_hit _ _ _ _ _ _ Huid Hfind Hlive) in Hrun.
    + by rewrite (get_list_of_posts_miss _ _ _ _ Huid Hhit) in Hrun.
  - apply delete_post_effect in Hrun.
    by destruct (PostRepository_get_by_id _ _); [destruct Hrun as [[=] _]|].
Qed.

(** A password passlib refuses to hash -- longer than 4096 characters, or with
    a NUL in it -- cannot be registered: the answer is the 500, whatever the
    email, and no user is stored. *)
Theorem sign_up_unhashable_password env request w :
  4096 < Z.of_nat (String.length (schemas.password request)) \/
  string_mem Ascii.zero (schemas.password request) = true ->
  sign_up env request w
  = (Raise (HTTPException status.HTTP_500_INTERNAL_SERVER_ERROR
              "Internal server error occurred"), w).
Proof.
  intros Hrefused.
  destruct (sign_up env request w) as [r w'] eqn:Hrun.
  pose proof (sign_up_effect _ _ _ _ _ Hrun)
    as (_ & _ & [[_ ->]|(hashed & _ & _ & _ & Hhash & _)]).
  - f_equal. by eapply sign_up_Raise.
  - exfalso. unfold pwd_context_hash, bcrypt_norm_secret in Hhash.
    destruct Hrefused as [Hlong%Z.ltb_lt|Hnul].
    + by rewrite Hlong in Hhash.
    + rewrite Hnul in Hhash. by destruct (4096 <? _).
Qed.


End Service.

(** * The properties on sample runs *)

(** C1, on a run: the first registration of [a@x.com] is answered 201, the
    second 500. *)
Lemma sign_up_same_email_twice_run :
  let sign_up := sign_up spelled_mac plain_signing_input spelled_digest in
  let first := sign_up (sample_env 0 0 "user-1") (schemas.mkSignUpRequest "a@x.com" "pw1")
                 empty_world in
  let second := sign_up (sample_env 1 0 "user-2") (schemas.mkSignUpRequest "a@x.com" "pw2")
                  first.2 in
  status_code status.HTTP_201_CREATED first.1 = 201 /\
  status_code status.HTTP_201_CREATED second.1 = 500.
Proof.
  split; [by vm_compute|].
  refine (proj2 (sign_up_same_email_twice spelled_mac plain_signing_input spelled_digest
                   (sample_env 0 0 "user-1") (sample_env 1 0 "user-2")
                   (schemas.mkSignUpRequest "a@x.com" "pw1")
                   (schemas.mkSignUpRequest "a@x.com" "pw2")
                   empty_world _ _ _)); [|reflexivity].
  eapply returned_run. by vm_compute.
Defined.

(** C2, on a run: a host at UTC-5 issues a token that is invalid at once. *)
Lemma issue_then_verify_behind_utc_run :
  exists t,
    JWT_create_token spelled_mac plain_signing_input (sample_env 0 (-18000) "")
      {["sub" := PyStr "user-1"]} = Return t /\
    JWT_validate_token spelled_mac decimal_int (sample_env 0 (-18000) "") t = Return false /\
    JWT_get_user_id spelled_mac decimal_int (sample_env 0 (-18000) "") t = Return None.
Proof.
  apply (issue_then_verify_behind_utc spelled_mac plain_signing_input decimal_int
           (sample_env 0 (-18000) "") "user-1").
  by vm_compute.
Defined.

(** On a host at UTC, the token is valid at once and yields its subject. *)
Lemma issue_then_verify_at_once_run :
  exists t,
    JWT_create_token spelled_mac plain_signing_input (sample_env 0 0 "")
      {["sub" := PyStr "user-1"]} = Return t /\
    JWT_validate_token spelled_mac decimal_int (sample_env 0 0 "") t = Return true /\
    JWT_get_user_id spelled_mac decimal_int (sample_env 0 0 "") t = Return (Some (JString "user-1")).
Proof.
  apply (issue_then_verify_at_once spelled_mac plain_signing_input decimal_int
           (sample_env 0 0 "") "user-1").
  by vm_compute.
Defined.

(** C4, on a run: a token issued on a host at UTC+2 is valid one second after
    its three hours. *)
Lemma issued_token_outlives_ttl_run :
  JWT_validate_token spelled_mac decimal_int (sample_env 10801 7200 "")
    (issued_token spelled_mac plain_signing_input (sample_env 0 7200 "") "user-1")
  = Return true.
Proof.
  apply (issued_token_outlives_ttl spelled_mac plain_signing_input decimal_int
           (sample_env 0 7200 "") (sample_env 10801 7200 "") "user-1");
    [by vm_compute|apply JWT_create_token_sub|by vm_compute|by vm_compute].
Defined.

(** On a host at UTC, the token is invalid three hours after its issue. *)
Lemma issued_token_expires_after_ttl_run :
  JWT_validate_token spelled_mac decimal_int (sample_env 10800 0 "")
    (issued_token spelled_mac plain_signing_input (sample_env 0 0 "") "user-1")
  = Return false.
Proof.
  apply (issued_token_expires_after_ttl spelled_mac plain_signing_input decimal_int
           (sample_env 0 0 "") (sample_env 10800 0 "") "user-1");
    [by vm_compute|apply JWT_create_token_sub|by vm_compute].
Defined.



(** A token whose [exp] is the text of a number is read like one. *)
Lemma text_exp_token_accepted :
  JWT_validate_token spelled_mac decimal_int (sample_env 0 0 "")
    (signed_token spelled_mac plain_signing_input {["exp" := JString "1800000000"]})
  = Return true.
Proof. by vm_compute. Qed.

(** C8, on a run: the sample post is deleted once; the second time there is
    none to delete. *)
Lemma PostRepository_delete_spec_run :
  exists db',
    PostRepository_delete "post-1" (db sample_world) = (Return true, db') /\
    PostRepository_get_by_id "post-1" db' = None /\
    PostRepository_delete "post-1" db' = (Return false, db').
Proof.
  destruct (proj2 (PostRepository_delete_spec "post-1" (db sample_world))
              (models.mkPost "post-1" "user-1" "hello"))
    as (db' & Hdelete & Hgone & _ & _ & Hagain); [by left|reflexivity|].
  by exists db'.
Defined.

(** C5, on a run: after user-1 adds a post, the cache holds nothing. *)
Lemma cache_cleared_after_post_written_run :
  links (cache (add_post spelled_mac decimal_int (sample_env 1 0 "post-2")
                  (schemas.mkCreatePostRequest "again")
                  (issued_token spelled_mac plain_signing_input (sample_env 0 0 "") "user-1")
                  sample_world).2)
  = [].
Proof.
  refine (proj1 (cache_cleared_after_post_written spelled_mac decimal_int sample_world _ _)).
  eapply post_created, returned_run. by vm_compute.
Defined.

(** C6, on a run: user-2's token deletes user-1's post just as user-1's does. *)
Lemma route_delete_post_ignores_subject_run :
  let t1 := issued_token spelled_mac plain_signing_input (sample_env 0 0 "") "user-1" in
  let t2 := issued_token spelled_mac plain_signing_input (sample_env 0 0 "") "user-2" in
  route_delete_post spelled_mac decimal_int (sample_env 1 0 "") (Some t1)
    (schemas.mkDeletePostRequest "post-1") sample_world
  = route_delete_post spelled_mac decimal_int (sample_env 2 0 "") (Some t2)
      (schemas.mkDeletePostRequest "post-1") sample_world.
Proof.
  refine (proj1 (route_delete_post_ignores_subject spelled_mac decimal_int
                   (sample_env 1 0 "") (sample_env 2 0 "")
                   (schemas.mkDeletePostRequest "post-1") _ _ sample_world _ _));
    by vm_compute.
Defined.



(** C9, on a run: the right secret verifies, another one does not. *)
Lemma pwd_context_hash_then_verify_run :
  pwd_context_verify spelled_digest "pw1"
    "$2b$12$abcdefghijklmnopqrstuvabcdefghijklmnopqrstuv|pw1" = Return true /\
  pwd_context_verify spelled_digest "pw2"
    "$2b$12$abcdefghijklmnopqrstuvabcdefghijklmnopqrstuv|pw1" = Return false.
Proof.
  destruct (pwd_context_hash_then_verify spelled_digest "abcdefghijklmnopqrstuv"
              "pw2" "pw1" "$2b$12$abcdefghijklmnopqrstuvabcdefghijklmnopqrstuv|pw1" "pw2"
              eq_refl eq_refl eq_refl) as (Hsame & _ & _ & Hother).
  split; [exact Hsame|]. apply Hother. by vm_compute.
Defined.

(** C9, the claim as stated fails: two distinct secrets, and the first
    verifies against the hash of the second. *)
Lemma long_secrets_verify_alike :
  bool_decide (long_secret "x" = long_secret "y") = false /\
  exists h,
    pwd_context_hash spelled_digest "abcdefghijklmnopqrstuv" (long_secret "y") = Return h /\
    pwd_context_verify spelled_digest (long_secret "x") h = Return true.
Proof.
  split; [by vm_compute|]. eexists. split; [by vm_compute|].
  by eapply (pwd_context_verify_shared_prefix spelled_digest "abcdefghijklmnopqrstuv"
               (long_secret "x") (long_secret "y")).
Qed.

(** Deleting a post that does not exist, on a run. *)
Lemma delete_post_missing_is_500_run :
  status_code status.HTTP_200_OK
    (delete_post (schemas.mkDeletePostRequest "post-9") (Malformed "") sample_world).1
  = 500.
Proof.
  by rewrite (delete_post_missing_is_500 (schemas.mkDeletePostRequest "post-9")
                (Malformed "") sample_world eq_refl).
Defined.

(** Logging in with a wrong password, on a run. *)
Lemma login_wrong_credentials_is_500_run :
  status_code status.HTTP_200_OK
    (login spelled_mac plain_signing_input spelled_digest (sample_env 0 0 "")
       (schemas.mkLoginRequest "a@x.com" "wrong") sample_world).1
  = 500.
Proof.
  by rewrite (login_wrong_credentials_is_500 spelled_mac plain_signing_input spelled_digest
                (sample_env 0 0 "") (schemas.mkLoginRequest "a@x.com" "wrong")
                sample_world eq_refl).
Defined.

(** A token that cannot be decoded is answered 401 by the deletion route, and
    nothing changes. *)
Lemma routes_refuse_unauthenticated_run :
  route_delete_post spelled_mac decimal_int (sample_env 0 0 "")
    (Some (Malformed "garbage")) (schemas.mkDeletePostRequest "post-1") sample_world
  = (Raise (HTTPException 401 "Invalid or expired token"), sample_world).
Proof.
  exact (proj2 (proj2 (proj2
           (routes_refuse_unauthenticated spelled_mac decimal_int
              (sample_env 0 0 "") (Some (Malformed "garbage")) 0
              (schemas.mkCreatePostRequest "")
              (schemas.mkDeletePostRequest "post-1") sample_world _ eq_refl)))).
Defined.

(** A body of 1,000,001 bytes behind a valid token is answered 413. *)
Lemma route_add_post_payload_limit_run :
  route_add_post spelled_mac decimal_int (sample_env 1 0 "post-2")
    (Some (issued_token spelled_mac plain_signing_input (sample_env 0 0 "") "user-1"))
    1000001 (schemas.mkCreatePostRequest "again") sample_world
  = (Raise (HTTPException 413 "Request is too large"), sample_world).
Proof.
  refine (route_add_post_payload_limit spelled_mac decimal_int
            (sample_env 1 0 "post-2")
            (Some (issued_token spelled_mac plain_signing_input (sample_env 0 0 "") "user-1"))
            1000001 (schemas.mkCreatePostRequest "again") sample_world _ _).
  by vm_compute.
Defined.



(** The sample post is deleted, by a caller whose token is not even read. *)
Lemma delete_post_removes_one_post_run :
  (delete_post (schemas.mkDeletePostRequest "post-1") (Malformed "") sample_world).1
  = Return (schemas.mkDeletePostResponse "post post-1 was deleted.").
Proof.
  destruct (delete_post_removes_one_post (schemas.mkDeletePostRequest "post-1")
              (Malformed "") sample_world (models.mkPost "post-1" "user-1" "hello") eq_refl)
    as (w' & -> & _). reflexivity.
Defined.

(** Registration on an empty database, then login with the same credentials. *)
Lemma sign_up_then_login_run :
  let registered :=
    sign_up spelled_mac plain_signing_input spelled_digest (sample_env 0 0 "user-1")
      (schemas.mkSignUpRequest "a@x.com" "pw1") empty_world in
  login spelled_mac plain_signing_input spelled_digest (sample_env 5 0 "")
    (schemas.mkLoginRequest "a@x.com" "pw1") registered.2
  = (Return (schemas.mkLoginResponse
               (issued_token spelled_mac plain_signing_input (sample_env 5 0 "") "user-1")),
     registered.2).
Proof.
  refine (proj1 (proj2 (proj2
            (sign_up_then_login spelled_mac plain_signing_input spelled_digest
               (sample_env 0 0 "user-1") (sample_env 5 0 "")
               (schemas.mkSignUpRequest "a@x.com" "pw1")
               (schemas.mkSignUpResponse
                  (issued_token spelled_mac plain_signing_input (sample_env 0 0 "user-1")
                     "user-1"))
               empty_world _ eq_refl _)))).
  by vm_compute.
Defined.



(** A listing cached on an empty database is still the answer 299 seconds
    later, although a post has been stored meanwhile behind the cache. *)
Lemma get_list_of_posts_served_from_cache_run :
  let token := issued_token spelled_mac plain_signing_input (sample_env 0 0 "") "user-1" in
  (get_list_of_posts spelled_mac decimal_int (sample_env 299 0 "") token
     (mkWorld (db sample_world)
        (cache (get_list_of_posts spelled_mac decimal_int (sample_env 0 0 "") token empty_world).2))).1
  = Return (schemas.mkGetListOfPostsResponse []).
Proof.
  refine (get_list_of_posts_served_from_cache spelled_mac decimal_int (sample_env 0 0 "")
            (sample_env 299 0 "")
            (issued_token spelled_mac plain_signing_input (sample_env 0 0 "") "user-1")
            (issued_token spelled_mac plain_signing_input (sample_env 0 0 "") "user-1")
            empty_world (Some (JString "user-1")) (db sample_world) _ _ _ _);
    by vm_compute.
Defined.

(** After user-2 has added a post to the sample state, whose cache holds the
    empty listing of user-2, the listing of user-2 is read afresh. *)
Lemma get_list_of_posts_never_stale_run :
  let token := issued_token spelled_mac plain_signing_input (sample_env 0 0 "") "user-2" in
  let w := (add_post spelled_mac decimal_int (sample_env 1 0 "post-2")
              (schemas.mkCreatePostRequest "again") token sample_world).2 in
  exists response w',
    get_list_of_posts spelled_mac decimal_int (sample_env 2 0 "") token w = (Return response, w') /\
    db w' = db w /\
    forall r,
      r ∈ schemas.list_of_posts response <->
      exists p, p ∈ posts (db w) /\
                models.post_user_id p = column_value (JString "user-2") /\
                r = schemas.mkPostResponse (models.post_id p) (models.text p).
Proof.
  refine (get_list_of_posts_never_stale spelled_mac plain_signing_input spelled_digest
             decimal_int
            sample_world _ (sample_env 2 0 "")
            (issued_token spelled_mac plain_signing_input (sample_env 0 0 "") "user-2")
            (Some (JString "user-2")) _ _ _).
  - repeat constructor.
  - apply rtc_once.
    exact (handled_add_post spelled_mac plain_signing_input spelled_digest
             decimal_int
             (sample_env 1 0 "post-2") (schemas.mkCreatePostRequest "again")
             (issued_token spelled_mac plain_signing_input (sample_env 0 0 "") "user-2")
             _ _ _ (surjective_pairing _)).
  - by vm_compute.
Defined.

(** A listing by a third user of the sample state leaves three entries in the
    cache, within the limit of 100. *)
Lemma cache_never_exceeds_limit_run :
  let w' := (get_list_of_posts spelled_mac decimal_int (sample_env 1 0 "")
               (issued_token spelled_mac plain_signing_input (sample_env 0 0 "") "user-3")
               sample_world).2 in
  maxsize (cache w') = config.CACHE_ITEM_LIMIT /\
  ttl (cache w') = config.CACHE_TIME_TO_LIVE /\
  Z.of_nat (length (links (cache w'))) <= config.CACHE_ITEM_LIMIT.
Proof.
  refine (cache_never_exceeds_limit spelled_mac plain_signing_input spelled_digest
             decimal_int
            sample_world _ _ _).
  - repeat split; by vm_compute.
  - apply rtc_once.
    exact (handled_get_list_of_posts spelled_mac plain_signing_input spelled_digest
             decimal_int
             (sample_env 1 0 "")
             (issued_token spelled_mac plain_signing_input (sample_env 0 0 "") "user-3")
             _ _ _ (surjective_pairing _)).
Defined.

(** Two registrations with one email, starting from nothing, leave the stored
    emails distinct. *)
Lemma storage_stays_consistent_run :
  let w1 := (sign_up spelled_mac plain_signing_input spelled_digest
               (sample_env 0 0 "user-1") (schemas.mkSignUpRequest "a@x.com" "pw1")
               empty_world).2 in
  let w2 := (sign_up spelled_mac plain_signing_input spelled_digest
               (sample_env 1 0 "user-2") (schemas.mkSignUpRequest "a@x.com" "pw2") w1).2 in
  NoDup (models.user_id <$> users (db w2)) /\
  NoDup (models.email <$> users (db w2)) /\
  NoDup (models.post_id <$> posts (db w2)) /\
  (forall p, p ∈ posts (db w2) ->
     is_Some (UserRepository_get_by_id (models.post_user_id p) (db w2))).
Proof.
  refine (storage_stays_consistent spelled_mac plain_signing_input spelled_digest
             decimal_int
            empty_world _ _ _).
  - repeat split; try apply NoDup_nil_2. intros p Hp. by apply elem_of_nil in Hp.
  - eapply rtc_l; [|apply rtc_once].
    + exact (handled_sign_up spelled_mac plain_signing_input spelled_digest
             decimal_int
               (sample_env 0 0 "user-1") (schemas.mkSignUpRequest "a@x.com" "pw1")
               _ _ _ (surjective_pairing _)).
    + exact (handled_sign_up spelled_mac plain_signing_input spelled_digest
             decimal_int
               (sample_env 1 0 "user-2") (schemas.mkSignUpRequest "a@x.com" "pw2")
               _ _ _ (surjective_pairing _)).
Defined.


(** A registration with the email of a sample user fails, and leaves the
    sample state as it was. *)
Lemma failed_request_is_500_run :
  (sign_up spelled_mac plain_signing_input spelled_digest (sample_env 0 0 "user-3")
     (schemas.mkSignUpRequest "a@x.com" "other") sample_world).2
  = sample_world.
Proof.
  refine (proj2 (failed_request_is_500 spelled_mac plain_signing_input spelled_digest
             decimal_int
                   sample_world
                   (HTTPException status.HTTP_500_INTERNAL_SERVER_ERROR
                      "Internal server error occurred") _
                   (failed_sign_up spelled_mac plain_signing_input spelled_digest
             decimal_int
                      (sample_env 0 0 "user-3") (schemas.mkSignUpRequest "a@x.com" "other")
                      _ _ _ _))).
  by vm_compute.
Defined.

(** A password that starts with a NUL, under an email nobody has. *)
Lemma sign_up_unhashable_password_run :
  sign_up spelled_mac plain_signing_input spelled_digest (sample_env 0 0 "user-3")
    (schemas.mkSignUpRequest "c@x.com" (String Ascii.zero "pw")) sample_world
  = (Raise (HTTPException status.HTTP_500_INTERNAL_SERVER_ERROR
              "Internal server error occurred"), sample_world).
Proof.
  exact (sign_up_unhashable_password spelled_mac plain_signing_input spelled_digest
           (sample_env 0 0 "user-3")
           (schemas.mkSignUpRequest "c@x.com" (String Ascii.zero "pw")) sample_world
           (or_intror eq_refl)).
Defined.

